(** * Statement ingestion of FinanceOS-Bot: a shallow embedding

    This development embeds the two statement parsers of the bot,
    [src/ai/csv_parser.py] and [src/ai/pdf_parser.py], and proves the
    properties the specification states about them.

    Layout:
    - Python values: strings as lists of code points, floats as IEEE 754
      binary64 values ([spec_float] at precision 53), the builtins the
      parsers call ([str.lower], [str.strip], [float], [re.match], ...);
    - [csv_parser.py]: tables, [detect_bank], the bank extractors,
      [categorize], [find_category_id], [parse_csv];
    - [pdf_parser.py]: table recognisers and extractors,
      [_is_person_name], [_classify_transaction], [_process_raw_rows],
      [parse_pdf];
    - the theorems. *)

From stdpp Require Import base option list strings gmap sets.
From Stdlib Require Import ZArith NArith Lia.
From Stdlib Require Import Floats.SpecFloat.

Local Open Scope N_scope.

(** ** Python strings

    A Python [str] is a sequence of Unicode code points; [len], slicing,
    [lower] and the regular expressions all work per code point, so the
    embedding uses [list N].  Literals are written as UTF-8 text and
    decoded by [u]. *)

Definition pystr := list N.

Fixpoint utf8_decode (bs : list N) (acc : N) (need : nat) : pystr :=
  match bs with
  | [] => []
  | b :: bs' =>
    if b <? 128 then b :: utf8_decode bs' 0 0%nat
    else if b <? 192 then
      let acc' := acc * 64 + (b - 128) in
      match need with
      | 0%nat => utf8_decode bs' 0 0%nat
      | 1%nat => acc' :: utf8_decode bs' 0 0%nat
      | S n => utf8_decode bs' acc' n
      end
    else if b <? 224 then utf8_decode bs' (b - 192) 1%nat
    else if b <? 240 then utf8_decode bs' (b - 224) 2%nat
    else utf8_decode bs' (b - 240) 3%nat
  end.

Definition u (s : String.string) : pystr :=
  utf8_decode (map Ascii.N_of_ascii (String.list_ascii_of_string s)) 0 0%nat.

Arguments u s%_string.

(** [a == b] on strings. *)
Definition str_eqb (a b : pystr) : bool := bool_decide (a = b).

(** [len(s) < n], [len(s) >= n] are written with [length] directly. *)

(** [s.startswith(p)] *)
Fixpoint startswith (s p : pystr) : bool :=
  match p, s with
  | [], _ => true
  | _ :: _, [] => false
  | c :: p', d :: s' => (c =? d) && startswith s' p'
  end.

(** [sub in s] *)
Fixpoint str_in (sub s : pystr) : bool :=
  startswith s sub ||
  match s with
  | [] => false
  | _ :: s' => str_in sub s'
  end.

(** [any(kw in s for kw in kws)] *)
Definition any_in (kws : list pystr) (s : pystr) : bool :=
  existsb (fun kw => str_in kw s) kws.

(** [in_ranges c tbl]: [c] lies in one of the closed intervals of [tbl]. *)
Definition in_ranges (c : N) (tbl : list (N * N)) : bool :=
  existsb (fun r => (fst r <=? c) && (c <=? snd r)) tbl.

(** [str.isspace] of one character, which is also the class [\s] of [re]
    on [str] patterns (Unicode 14, CPython 3.11). *)
Definition isspace (c : N) : bool :=
  in_ranges c [(9, 13); (28, 32); (133, 133); (160, 160); (5760, 5760);
               (8192, 8202); (8232, 8233); (8239, 8239); (8287, 8287);
               (12288, 12288)].

(** General category Nd: the class [\d] of [re], and the digits [int] and
    [float] accept.  Every interval starts at a digit zero. *)
Definition Nd_table : list (N * N) :=
  [
    (48,57); (1632,1641); (1776,1785); (1984,1993); (2406,2415);
    (2534,2543); (2662,2671); (2790,2799); (2918,2927); (3046,3055);
    (3174,3183); (3302,3311); (3430,3439); (3558,3567); (3664,3673);
    (3792,3801); (3872,3881); (4160,4169); (4240,4249); (6112,6121);
    (6160,6169); (6470,6479); (6608,6617); (6784,6793); (6800,6809);
    (6992,7001); (7088,7097); (7232,7241); (7248,7257); (42528,42537);
    (43216,43225); (43264,43273); (43472,43481); (43504,43513);
    (43600,43609); (44016,44025); (65296,65305); (66720,66729);
    (68912,68921); (69734,69743); (69872,69881); (69942,69951);
    (70096,70105); (70384,70393); (70736,70745); (70864,70873);
    (71248,71257); (71360,71369); (71472,71481); (71904,71913);
    (72016,72025); (72784,72793); (73040,73049); (73120,73129);
    (92768,92777); (92864,92873); (93008,93017); (120782,120831);
    (123200,123209); (123632,123641); (125264,125273); (130032,130041)
  ].

Definition is_decimal (c : N) : bool := in_ranges c Nd_table.

(** The decimal value of a character of category Nd. *)
Definition decimal_value (c : N) : option N :=
  match filter (fun r => (fst r <=? c) && (c <=? snd r)) Nd_table with
  | r :: _ => Some ((c - fst r) mod 10)
  | [] => None
  end.

(** [str.isdigit] of one character (Numeric_Type Digit or Decimal). *)
Definition isdigit_table : list (N * N) :=
  [
    (48,57); (178,179); (185,185); (1632,1641); (1776,1785); (1984,1993);
    (2406,2415); (2534,2543); (2662,2671); (2790,2799); (2918,2927);
    (3046,3055); (3174,3183); (3302,3311); (3430,3439); (3558,3567);
    (3664,3673); (3792,3801); (3872,3881); (4160,4169); (4240,4249);
    (4969,4977); (6112,6121); (6160,6169); (6470,6479); (6608,6618);
    (6784,6793); (6800,6809); (6992,7001); (7088,7097); (7232,7241);
    (7248,7257); (8304,8304); (8308,8313); (8320,8329); (9312,9320);
    (9332,9340); (9352,9360); (9450,9450); (9461,9469); (9471,9471);
    (10102,10110); (10112,10120); (10122,10130); (42528,42537);
    (43216,43225); (43264,43273); (43472,43481); (43504,43513);
    (43600,43609); (44016,44025); (65296,65305); (66720,66729);
    (68160,68163); (68912,68921); (69216,69224); (69714,69722);
    (69734,69743); (69872,69881); (69942,69951); (70096,70105);
    (70384,70393); (70736,70745); (70864,70873); (71248,71257);
    (71360,71369); (71472,71481); (71904,71913); (72016,72025);
    (72784,72793); (73040,73049); (73120,73129); (92768,92777);
    (92864,92873); (93008,93017); (120782,120831); (123200,123209);
    (123632,123641); (125264,125273); (127232,127242); (130032,130041)
  ].

(** [s.isdigit()] *)
Definition isdigit (s : pystr) : bool :=
  match s with
  | [] => false
  | _ => forallb (fun c => in_ranges c isdigit_table) s
  end.

(** The simple lower-case mapping of Unicode, as runs
    [(first, last, stride, image of first)]. *)
Definition lower_table : list (N * N * N * N) :=
  [
    (65,90,1,97); (192,214,1,224); (216,222,1,248); (256,302,2,257);
    (306,310,2,307); (313,327,2,314); (330,374,2,331); (376,376,1,255);
    (377,381,2,378); (385,385,1,595); (386,388,2,387); (390,390,1,596);
    (391,391,1,392); (393,394,1,598); (395,395,1,396); (398,398,1,477);
    (399,399,1,601); (400,400,1,603); (401,401,1,402); (403,403,1,608);
    (404,404,1,611); (406,406,1,617); (407,407,1,616); (408,408,1,409);
    (412,412,1,623); (413,413,1,626); (415,415,1,629); (416,420,2,417);
    (422,422,1,640); (423,423,1,424); (425,425,1,643); (428,428,1,429);
    (430,430,1,648); (431,431,1,432); (433,434,1,650); (435,437,2,436);
    (439,439,1,658); (440,440,1,441); (444,444,1,445); (452,452,1,454);
    (453,453,1,454); (455,455,1,457); (456,456,1,457); (458,458,1,460);
    (459,475,2,460); (478,494,2,479); (497,497,1,499); (498,500,2,499);
    (502,502,1,405); (503,503,1,447); (504,542,2,505); (544,544,1,414);
    (546,562,2,547); (570,570,1,11365); (571,571,1,572); (573,573,1,410);
    (574,574,1,11366); (577,577,1,578); (579,579,1,384); (580,580,1,649);
    (581,581,1,652); (582,590,2,583); (880,882,2,881); (886,886,1,887);
    (895,895,1,1011); (902,902,1,940); (904,906,1,941); (908,908,1,972);
    (910,911,1,973); (913,929,1,945); (931,939,1,963); (975,975,1,983);
    (984,1006,2,985); (1012,1012,1,952); (1015,1015,1,1016);
    (1017,1017,1,1010); (1018,1018,1,1019); (1021,1023,1,891);
    (1024,1039,1,1104); (1040,1071,1,1072); (1120,1152,2,1121);
    (1162,1214,2,1163); (1216,1216,1,1231); (1217,1229,2,1218);
    (1232,1326,2,1233); (1329,1366,1,1377); (4256,4293,1,11520);
    (4295,4295,1,11559); (4301,4301,1,11565); (5024,5103,1,43888);
    (5104,5109,1,5112); (7312,7354,1,4304); (7357,7359,1,4349);
    (7680,7828,2,7681); (7838,7838,1,223); (7840,7934,2,7841);
    (7944,7951,1,7936); (7960,7965,1,7952); (7976,7983,1,7968);
    (7992,7999,1,7984); (8008,8013,1,8000); (8025,8031,2,8017);
    (8040,8047,1,8032); (8072,8079,1,8064); (8088,8095,1,8080);
    (8104,8111,1,8096); (8120,8121,1,8112); (8122,8123,1,8048);
    (8124,8124,1,8115); (8136,8139,1,8050); (8140,8140,1,8131);
    (8152,8153,1,8144); (8154,8155,1,8054); (8168,8169,1,8160);
    (8170,8171,1,8058); (8172,8172,1,8165); (8184,8185,1,8056);
    (8186,8187,1,8060); (8188,8188,1,8179); (8486,8486,1,969);
    (8490,8490,1,107); (8491,8491,1,229); (8498,8498,1,8526);
    (8544,8559,1,8560); (8579,8579,1,8580); (9398,9423,1,9424);
    (11264,11311,1,11312); (11360,11360,1,11361); (11362,11362,1,619);
    (11363,11363,1,7549); (11364,11364,1,637); (11367,11371,2,11368);
    (11373,11373,1,593); (11374,11374,1,625); (11375,11375,1,592);
    (11376,11376,1,594); (11378,11378,1,11379); (11381,11381,1,11382);
    (11390,11391,1,575); (11392,11490,2,11393); (11499,11501,2,11500);
    (11506,11506,1,11507); (42560,42604,2,42561); (42624,42650,2,42625);
    (42786,42798,2,42787); (42802,42862,2,42803); (42873,42875,2,42874);
    (42877,42877,1,7545); (42878,42886,2,42879); (42891,42891,1,42892);
    (42893,42893,1,613); (42896,42898,2,42897); (42902,42920,2,42903);
    (42922,42922,1,614); (42923,42923,1,604); (42924,42924,1,609);
    (42925,42925,1,620); (42926,42926,1,618); (42928,42928,1,670);
    (42929,42929,1,647); (42930,42930,1,669); (42931,42931,1,43859);
    (42932,42946,2,42933); (42948,42948,1,42900); (42949,42949,1,642);
    (42950,42950,1,7566); (42951,42953,2,42952); (42960,42960,1,42961);
    (42966,42968,2,42967); (42997,42997,1,42998); (65313,65338,1,65345);
    (66560,66599,1,66600); (66736,66771,1,66776); (66928,66938,1,66967);
    (66940,66954,1,66979); (66956,66962,1,66995); (66964,66965,1,67003);
    (68736,68786,1,68800); (71840,71871,1,71872); (93760,93791,1,93792);
    (125184,125217,1,125218)
  ].

(** [str.lower] of one character.  U+0130 is the one character whose
    lower case has two code points.  The context rule of CPython for a
    capital sigma at the end of a word is not modelled: U+03A3 always
    becomes U+03C3. *)
Definition lower_char (c : N) : pystr :=
  if c =? 304 then [105; 775]
  else
    match filter (fun r => match r with (lo, hi, st, _) =>
                    (lo <=? c) && (c <=? hi) && ((c - lo) mod st =? 0) end)
                 lower_table with
    | (lo, _, _, img) :: _ => [img + (c - lo)]
    | [] => [c]
    end.

(** [s.lower()] *)
Definition lower (s : pystr) : pystr := List.concat (map lower_char s).

(** [s.upper()] restricted to the ASCII, Latin-1 and Cyrillic letters.
    Its one use in the parsers, [dc_flag.upper().startswith("D")] (and
    ["C"]), looks at the first character only, and [c], [C], [d], [D] are
    the only code points whose upper case starts with [C] or [D]. *)
Definition upper_char (c : N) : N :=
  if (97 <=? c) && (c <=? 122) then c - 32
  else if (224 <=? c) && (c <=? 254) && negb (c =? 247) then c - 32
  else if (1072 <=? c) && (c <=? 1103) then c - 32
  else if (1104 <=? c) && (c <=? 1119) then c - 80
  else if c =? 1169 then 1168
  else c.

Definition upper (s : pystr) : pystr := map upper_char s.

(** Removal of the leading, the trailing, or both runs of characters
    that satisfy [p]. *)
Fixpoint lstrip_by (p : N -> bool) (s : pystr) : pystr :=
  match s with
  | c :: s' => if p c then lstrip_by p s' else s
  | [] => []
  end.

Definition rstrip_by (p : N -> bool) (s : pystr) : pystr :=
  rev (lstrip_by p (rev s)).

Definition strip_by (p : N -> bool) (s : pystr) : pystr :=
  rstrip_by p (lstrip_by p s).

(** [s.strip()] *)
Definition strip (s : pystr) : pystr := strip_by isspace s.

(** [s.replace(old, new)] for a non-empty [old]: occurrences are replaced
    from left to right and do not overlap.  [skip] counts the characters
    of the occurrence being replaced that are still to be dropped. *)
Fixpoint replace_from (old new s : pystr) (skip : nat) : pystr :=
  match s with
  | [] => []
  | c :: s' =>
    match skip with
    | S n => replace_from old new s' n
    | O =>
      if startswith s old
      then new ++ replace_from old new s' (length old - 1)
      else c :: replace_from old new s' 0
    end
  end.

Definition replace (s old new : pystr) : pystr := replace_from old new s 0.

(** [s.count(sub)] for a non-empty [sub]: non-overlapping occurrences. *)
Fixpoint count_from (sub s : pystr) (skip : nat) : nat :=
  match s with
  | [] => 0
  | c :: s' =>
    match skip with
    | S n => count_from sub s' n
    | O =>
      if startswith s sub
      then S (count_from sub s' (length sub - 1))
      else count_from sub s' 0
    end
  end.

Definition count (s sub : pystr) : nat := count_from sub s 0.

(** [s.split()]: the maximal runs of non-whitespace characters. *)
Fixpoint split_from (s : pystr) (cur : pystr) : list pystr :=
  match s with
  | [] => match cur with [] => [] | _ => [rev cur] end
  | c :: s' =>
    if isspace c
    then match cur with
         | [] => split_from s' []
         | _ => rev cur :: split_from s' []
         end
    else split_from s' (c :: cur)
  end.

Definition split (s : pystr) : list pystr := split_from s [].

(** [sep.join(parts)] *)
Fixpoint join (sep : pystr) (parts : list pystr) : pystr :=
  match parts with
  | [] => []
  | [p] => p
  | p :: rest => p ++ sep ++ join sep rest
  end.

(** ** Python floats

    A Python [float] is an IEEE 754 binary64 value: [spec_float] with a
    53-bit mantissa, including signed zeros, infinities and NaN. *)

Definition prec : Z := 53.
Definition emax : Z := 1024.

Definition pyfloat := spec_float.

(** [float(z)] for an integer [z], rounded to nearest even. *)
Definition float_of_Z (z : Z) : pyfloat := binary_normalize prec emax z 0 false.

(** The binary64 value nearest to [(-1)^neg * m * 10^e10]. *)
Definition float_of_decimal (neg : bool) (m : N) (e10 : Z) : pyfloat :=
  match m with
  | N0 => S754_zero neg
  | Npos p =>
    match e10 with
    | Zneg k =>
      SFdiv prec emax (S754_finite neg p 0) (S754_finite false (10 ^ k) 0)
    | _ => binary_round prec emax neg (p * Z.to_pos (10 ^ e10)) 0
    end
  end.

(** [abs(x)], [-x], [x < y], [x > y], [x >= y], [x / y] *)
Definition fabs (x : pyfloat) : pyfloat := SFabs x.
Definition fneg (x : pyfloat) : pyfloat := SFopp x.
Definition flt (x y : pyfloat) : bool := SFltb x y.
Definition fgt (x y : pyfloat) : bool := SFltb y x.
Definition fge (x y : pyfloat) : bool := SFleb y x.
Definition fdiv (x y : pyfloat) : pyfloat := SFdiv prec emax x y.

(** [bool(x)]: every float but the two zeros is true, NaN included. *)
Definition float_truthy (x : pyfloat) : bool :=
  match x with
  | S754_zero _ => false
  | _ => true
  end.

(** The literals [0], [0.01] and [0.5]. *)
Definition f_zero : pyfloat := S754_zero false.
Definition f_0_01 : pyfloat := float_of_decimal false 1 (-2).
Definition f_0_5 : pyfloat := float_of_decimal false 5 (-1).

(** *** [float(s)] on a string

    CPython first maps the string to ASCII (a character below 127 is
    kept, other whitespace becomes a space, other decimal digits become
    their ASCII digit, anything else makes the conversion fail), strips
    ASCII whitespace, removes the underscores that stand between two
    digits, and reads
    [[sign] (digits [. [digits]] | . digits) [(e|E) [sign] digits]] or
    [[sign] (inf | infinity | nan)] in any letter case. *)

Definition ascii_space (c : N) : bool := in_ranges c [(9, 13); (32, 32)].
Definition ascii_digit (c : N) : bool := (48 <=? c) && (c <=? 57).

Definition float_ascii (c : N) : N :=
  if c <? 127 then c
  else if isspace c then 32
  else match decimal_value c with
       | Some d => 48 + d
       | None => 63
       end.

Fixpoint drop_underscores (s : pystr) (prev : N) : option pystr :=
  match s with
  | [] => if prev =? 95 then None else Some []
  | c :: s' =>
    if c =? 95
    then (if ascii_digit prev then drop_underscores s' c else None)
    else if (prev =? 95) && negb (ascii_digit c) then None
    else cons c <$> drop_underscores s' c
  end.

(** The longest prefix of ASCII digits, and the rest. *)
Fixpoint span_digits (s : pystr) : pystr * pystr :=
  match s with
  | c :: s' =>
    if ascii_digit c
    then let '(ds, rest) := span_digits s' in (c :: ds, rest)
    else ([], s)
  | [] => ([], [])
  end.

Definition digits_value (ds : pystr) : N :=
  fold_left (fun acc c => 10 * acc + (c - 48)) ds 0.

Definition split_sign (s : pystr) : bool * pystr :=
  match s with
  | 45 :: r => (true, r)
  | 43 :: r => (false, r)
  | _ => (false, s)
  end.

Definition ascii_lower (c : N) : N :=
  if (65 <=? c) && (c <=? 90) then c + 32 else c.

Definition parse_float_ascii (s : pystr) : option pyfloat :=
  let '(neg, s1) := split_sign s in
  let word := map ascii_lower s1 in
  if str_eqb word (u "inf") || str_eqb word (u "infinity")
  then Some (S754_infinity neg)
  else if str_eqb word (u "nan") then Some S754_nan
  else
    let '(ip, s2) := span_digits s1 in
    let '(fp, s3) :=
      match s2 with
      | 46 :: r => span_digits r
      | _ => ([], s2)
      end in
    match ip ++ fp with
    | [] => None
    | ds =>
      let m := digits_value ds in
      let scale := Z.of_nat (length fp) in
      match s3 with
      | [] => Some (float_of_decimal neg m (- scale))
      | e :: s4 =>
        if (e =? 101) || (e =? 69)
        then
          let '(eneg, s5) := split_sign s4 in
          let '(ed, s6) := span_digits s5 in
          match ed, s6 with
          | _ :: _, [] =>
            let ex := Z.of_N (digits_value ed) in
            Some (float_of_decimal neg m ((if eneg then - ex else ex) - scale))
          | _, _ => None
          end
        else None
      end
    end.

(** [float(s)]; [None] stands for [ValueError]. *)
Definition float_of_str (s : pystr) : option pyfloat :=
  drop_underscores (strip_by ascii_space (map float_ascii s)) 0
    ≫= parse_float_ascii.

(** [int(s)] for a string of decimal digits (no sign, no blanks);
    [None] stands for [ValueError], which CPython also raises beyond
    4300 digits. *)
Definition int_of_digits (s : pystr) : option Z :=
  match s with
  | [] => None
  | _ =>
    if forallb is_decimal s && bool_decide (length s <= 4300)%nat
    then Some (Z.of_N (fold_left
                 (fun acc c => 10 * acc + default 0 (decimal_value c)) s 0))
    else None
  end.

(** ** Regular expressions

    The patterns of the parsers are built from character classes,
    sequencing, greedy bounded or unbounded repetition, capturing groups
    and the end anchor.  [bt] is the backtracking matcher of [re]: it
    explores the alternatives in the order [re] does and hands the rest
    of the subject and the groups captured so far to its continuation.
    An unbounded repetition is cut at the length of the subject, which
    loses nothing as every repeated body here consumes a character. *)

Inductive regex :=
| Eps
| Cls (p : N -> bool)
| Seq (r1 r2 : regex)
| Rep (r : regex) (lo : nat) (hi : option nat)
| Grp (r : regex)
| Eos.

Fixpoint bt {R : Type} (r : regex) (s : pystr) (caps : list pystr)
    (k : pystr -> list pystr -> option R) {struct r} : option R :=
  match r with
  | Eps => k s caps
  | Cls p =>
    match s with
    | c :: s' => if p c then k s' caps else None
    | [] => None
    end
  | Seq r1 r2 => bt r1 s caps (fun s1 c1 => bt r2 s1 c1 k)
  | Rep r lo hi =>
    let fix rep (n lo : nat) (s : pystr) (caps : list pystr) {struct n}
        : option R :=
      match n with
      | O => match lo with O => k s caps | S _ => None end
      | S n' =>
        match lo with
        | S lo' => bt r s caps (fun s1 c1 => rep n' lo' s1 c1)
        | O =>
          match bt r s caps (fun s1 c1 => rep n' O s1 c1) with
          | Some x => Some x
          | None => k s caps
          end
        end
      end in
    rep (match hi with Some h => h | None => lo + length s end)%nat lo s caps
  | Grp r =>
    bt r s caps
       (fun s1 c1 => k s1 (c1 ++ [take (length s - length s1) s]))
  | Eos =>
    match s with
    | [] | [10] => k s caps
    | _ => None
    end
  end.

(** [pattern.match(s)]: the groups of the first match at the start. *)
Definition re_match (r : regex) (s : pystr) : option (list pystr) :=
  bt r s [] (fun _ caps => Some caps).

(** [pattern.search(s)]: the groups of the leftmost match. *)
Fixpoint re_search (r : regex) (s : pystr) : option (list pystr) :=
  match re_match r s with
  | Some caps => Some caps
  | None =>
    match s with
    | [] => None
    | _ :: s' => re_search r s'
    end
  end.

(** A literal string; with [re.IGNORECASE] a character matches when its
    lower case is that of the pattern's character. *)
Definition chr (c : N) : regex := Cls (N.eqb c).
Definition chr_i (c : N) : regex :=
  Cls (fun x => str_eqb (lower_char x) (lower_char c)).

Definition lit (s : pystr) : regex := foldr (fun c r => Seq (chr c) r) Eps s.
Definition lit_i (s : pystr) : regex :=
  foldr (fun c r => Seq (chr_i c) r) Eps s.

Definition one_of (s : pystr) (c : N) : bool := existsb (N.eqb c) s.

Definition re_d : regex := Cls is_decimal.
Definition re_s : regex := Cls isspace.
Definition times (r : regex) (n : nat) : regex := Rep r n (Some n).
Definition plus (r : regex) : regex := Rep r 1 None.
Definition star (r : regex) : regex := Rep r 0 None.

(** ** Exceptions

    The parsers signal a rejected row by [None] and let the exceptions of
    the runtime escape; [result] carries either outcome. *)

Inductive exn :=
| AttributeError
| IndexError
| OverflowError
| OSError
| ValueError (msg : pystr).

Inductive result (A : Type) :=
| Ok (a : A)
| Raise (e : exn).

Arguments Ok {A} a.
Arguments Raise {A} e.

#[global] Instance result_ret : MRet result := fun A a => Ok a.
#[global] Instance result_bind : MBind result := fun A B f m =>
  match m with
  | Ok a => f a
  | Raise e => Raise e
  end.

(** * [csv_parser.py] *)

Inductive TxType := expense | income | transfer.

#[global] Instance TxType_eq_dec : EqDecision TxType.
Proof. solve_decision. Defined.

(** The string a [TxType] is in the source. *)
Definition tx_str (t : TxType) : pystr :=
  match t with
  | expense => u "expense"
  | income => u "income"
  | transfer => u "transfer"
  end.

Definition MCC_TO_CATEGORY : gmap pystr (pystr * TxType) :=
  list_to_map [
    (u "5411", (u "Супермаркети", expense));
    (u "5412", (u "Супермаркети", expense));
    (u "5499", (u "Супермаркети", expense));
    (u "5441", (u "Кава/Снеки", expense));
    (u "5814", (u "Заклади", expense));
    (u "5812", (u "Заклади", expense));
    (u "5813", (u "Заклади", expense));
    (u "5912", (u "Ліки/Лікарі", expense));
    (u "8011", (u "Ліки/Лікарі", expense));
    (u "8021", (u "Ліки/Лікарі", expense));
    (u "8099", (u "Ліки/Лікарі", expense));
    (u "8062", (u "Ліки/Лікарі", expense));
    (u "7922", (u "Події/Хобі", expense));
    (u "7929", (u "Події/Хобі", expense));
    (u "7941", (u "Спортзал", expense));
    (u "7997", (u "Спортзал", expense));
    (u "5661", (u "Одяг/Взуття", expense));
    (u "5691", (u "Одяг/Взуття", expense));
    (u "5651", (u "Одяг/Взуття", expense));
    (u "5948", (u "Одяг/Взуття", expense));
    (u "5732", (u "Електроніка", expense));
    (u "5734", (u "Сервіси/Підписки", expense));
    (u "5045", (u "Електроніка", expense));
    (u "5999", (u "Товари для дому", expense));
    (u "5200", (u "Товари для дому", expense));
    (u "5251", (u "Товари для дому", expense));
    (u "5511", (u "Авто", expense));
    (u "5521", (u "Авто", expense));
    (u "5541", (u "Авто", expense));
    (u "5542", (u "Авто", expense));
    (u "7523", (u "Авто", expense));
    (u "7538", (u "Авто", expense));
    (u "4111", (u "Таксі/Громадський", expense));
    (u "4121", (u "Таксі/Громадський", expense));
    (u "4131", (u "Таксі/Громадський", expense));
    (u "7512", (u "Таксі/Громадський", expense));
    (u "4900", (u "Оренда/Комунальні", expense));
    (u "4814", (u "Зв'язок", expense));
    (u "4812", (u "Зв'язок", expense));
    (u "8220", (u "Освіта", expense));
    (u "8299", (u "Освіта", expense));
    (u "7230", (u "Б'юті", expense));
    (u "7011", (u "Розважальні підписки", expense));
    (u "6011", (u "Переказ (інше)", transfer));
    (u "6012", (u "Переказ (інше)", transfer));
    (u "6010", (u "Переказ (інше)", transfer));
    (u "6051", (u "Обмін валют", transfer));
    (u "6050", (u "Обмін валют", transfer))
  ].

Definition KEYWORD_RULES : list (list pystr * pystr * TxType) :=
  [
    ([u "сільпо"; u "silpo"; u "atb"; u "атб"; u "novus"; u "новус";
      u "metro cash"; u "auchan"; u "ашан"; u "fozzy"; u "фоззі";
      u "велмарт"; u "велика кишеня"; u "billa"; u "білла"; u "rukavychka";
      u "rukavichka"; u "рукавичка"; u "ultramarket"; u "ультрамаркет"],
     u "Супермаркети", expense);
    ([u "kfc"; u "mcdonald"; u "макдональдс"; u "burger king"; u "pizza hut";
      u "pizza"; u "піца"; u "суші"; u "sushi"; u "wok"; u "ресторан";
      u "кафе"; u "cafe"; u "пиво"; u "beer"; u "pub"; u "паб"; u "шаурма";
      u "хінкалі"; u "puzata hata"; u "пузата хата"; u "chelentano";
      u "celentano"; u "vapiano"; u "mafia"; u "якитория"; u "якіторія"],
     u "Заклади", expense);
    ([u "starbucks"; u "coffee"; u "кава"; u "lavazza"; u "снек"; u "snack";
      u "чай"; u "bakery"; u "пекарня"; u "croissant"; u "круасан";
      u "smoothie"],
     u "Кава/Снеки", expense);
    ([u "bolt food"; u "bolt"; u "uber"; u "uklon"; u "уклон"; u "taxi";
      u "таксі"; u "маршрутка"; u "метро"; u "ukrzaliznytsia";
      u "укрзалізниця"; u "ryanair"; u "wizz"; u "wizzair"; u "турагентство";
      u "booking.com"; u "airbnb"],
     u "Таксі/Громадський", expense);
    ([u "shell"; u "wog"; u "okko"; u "socar"; u "азс"; u "brsm";
      u "укрнафта"; u "бензин"; u "автосервіс"; u "шиномонтаж";
      u "мийка авто"; u "автомийка"; u "парковк"; u "renault"; u "toyota";
      u "volkswagen"],
     u "Авто", expense);
    ([u "київстар"; u "kyivstar"; u "vodafone"; u "life"; u "лайф";
      u "інтернет"; u "internet"; u "lifecell"; u "укртелеком"; u "mobile";
      u "sim"; u "тariф"],
     u "Зв'язок", expense);
    ([u "комунальні"; u "комунальна"; u "водоканал"; u "газ";
      u "газопостачання"; u "теплоенерго"; u "електро"; u "квартплата";
      u "оренда"; u "аренда"; u "нерухомість"; u "ЖКП"; u "ЖКГ"],
     u "Оренда/Комунальні", expense);
    ([u "netflix"; u "spotify"; u "apple"; u "google play"; u "steam";
      u "adobe"; u "microsoft"; u "subscri"; u "підписка"; u "chatgpt";
      u "openai"; u "claude"; u "anthropic"; u "midjourney"; u "figma";
      u "canva"; u "notion"; u "patreon"],
     u "Сервіси/Підписки", expense);
    ([u "rozetka"; u "розетка"; u "foxtrot"; u "фокстрот"; u "comfy";
      u "eldorado"; u "ельдорадо"; u "moyo"; u "iphone"; u "samsung";
      u "laptop"; u "lenovo"; u "dell"; u "apple store"; u "xiaomi"],
     u "Електроніка", expense);
    ([u "зарплата"; u "зп"; u "salary"; u "аванс"; u "нарахування зп";
      u "виплата зп"; u "заробітна плата"; u "заробітня плата"],
     u "Зарплата", income);
    ([u "фріланс"; u "freelance"; u "upwork"; u "toptal";
      u "оплата за проект"; u "за послуги"; u "за роботу"; u "винагорода"],
     u "Фріланс", income);
    ([u "надходження"; u "нарахування"; u "зарахування"; u "від фізичної";
      u "від фоп"; u "повернення коштів"; u "відшкодування"],
     u "Інший дохід", income);
    ([u "подарунок"; u "gift"; u "від мами"; u "від тата"; u "від батьків"],
     u "Подарунок", income);
    ([u "поповнення з картки"; u "card2card"; u "p2p"; u "переказ від";
      u "від:"],
     u "Переказ (інше)", transfer);
    ([u "відкладання"; u "на банку"; u "накопичення"; u "заощадження";
      u "до банки"; u "на депозит"; u "депозит"; u "pension"; u "пенсія"],
     u "Інвестиції/Скарбничка", transfer);
    ([u "обмін валют"; u "currency"; u "exchange"; u "конверсія";
      u "продаж валюти"; u "купівля валюти"; u "usd sell"; u "eur buy"],
     u "Обмін валют", transfer);
    ([u "аптека"; u "pharmacy"; u "farmacy"; u "ліки"; u "лікарня";
      u "клініка"; u "clinic"; u "лікар"; u "doctor"; u "medis"; u "меділайф"],
     u "Ліки/Лікарі", expense);
    ([u "gym"; u "спортзал"; u "фітнес"; u "fitness"; u "sport club";
      u "SportLife"; u "басейн"; u "тренажер"],
     u "Спортзал", expense);
    ([u "перукар"; u "barber"; u "косметика"; u "salon"; u "манікюр";
      u "педикюр"; u "краса"; u "beauty"],
     u "Б'юті", expense);
    ([u "zara"; u "h&m"; u "bershka"; u "reserved"; u "lcwaikiki";
      u "pull&bear"; u "mango"; u "adidas"; u "nike"; u "puma"; u "одяг";
      u "взуття"; u "shoes"; u "shafa"; u "lamoda"],
     u "Одяг/Взуття", expense);
    ([u "кіно"; u "cinema"; u "multiplex"; u "планетарій"; u "театр";
      u "concert"; u "концерт"; u "квиток"; u "ticket"; u "eventbrite";
      u "karabas"],
     u "Події/Хобі", expense);
    ([u "зсу"; u "prytula"; u "благодійн"; u "charity"; u "volunteer";
      u "волонтер"; u "донат"; u "donat"; u "ukraine now"; u "повна чаша";
      u "army"],
     u "ЗСУ/Волонтери", expense);
    ([u "комісія банку"; u "комісія за"; u "bank fee";
      u "плата за обслуговування"; u "обслуговування рахунку";
      u "смс інформування"],
     u "Комісії банків", expense)
  ].

Inductive BankFormat :=
| MONO | PRIVAT | OSCHADBANK | RAIFFEISEN | PUMB | ABANK | GENERIC.

#[global] Instance BankFormat_eq_dec : EqDecision BankFormat.
Proof. solve_decision. Defined.

Definition bank_str (b : BankFormat) : pystr :=
  match b with
  | MONO => u "monobank"
  | PRIVAT => u "privatbank"
  | OSCHADBANK => u "oschadbank"
  | RAIFFEISEN => u "raiffeisen"
  | PUMB => u "pumb"
  | ABANK => u "abank"
  | GENERIC => u "generic"
  end.

(** [any(sub in h for h in hs)] and [x in hs] on the set of headers. *)
Definition any_has (hs : gset pystr) (sub : pystr) : bool :=
  existsb (str_in sub) (elements hs).

Definition has (hs : gset pystr) (x : pystr) : bool := bool_decide (x ∈ hs).

(** [detect_bank(headers)].  The source also computes [h_joined], which
    it never reads. *)
Definition detect_bank (headers : list pystr) : BankFormat :=
  let h_lower : gset pystr :=
    list_to_set (map (fun h => strip (lower h)) headers) in
  if has h_lower (u "mcc") && any_has h_lower (u "деталі операції")
  then MONO
  else if any_has h_lower (u "дата і час операції") then MONO
  else if any_has h_lower (u "дата і час")
          && any_has h_lower (u "опис операції") then PRIVAT
  else if any_has h_lower (u "деталі операції")
          && has h_lower (u "категорія") then PRIVAT
  else if any_has h_lower (u "призначення платежу")
          && (any_has h_lower (u "дебет") || any_has h_lower (u "кредит"))
  then OSCHADBANK
  else if any_has h_lower (u "призначення платежу") then OSCHADBANK
  else if any_has h_lower (u "operation date") then RAIFFEISEN
  else if existsb (fun h => str_in (u "document amount") h
                            || str_in (u "операція") h) (elements h_lower)
          && has h_lower (u "amount") then RAIFFEISEN
  else if any_has h_lower (u "дата документу")
          && any_has h_lower (u "призначення") then PUMB
  else if existsb (fun h => str_in (u "пумб") h || str_in (u "pumb") h)
                  (elements h_lower) then PUMB
  else if any_has h_lower (u "прихід") || any_has h_lower (u "витрати")
  then ABANK
  else if existsb (fun h => str_in (u "abank") h || str_in (u "а-банк") h)
                  (elements h_lower) then ABANK
  else GENERIC.

(** [_parse_amount(raw)] *)
Definition _parse_amount (raw : pystr) : option pyfloat :=
  if bool_decide (raw = []) || bool_decide (strip raw = []) then None
  else
    let cleaned := replace (replace (strip raw) [160] []) (u " ") [] in
    let cleaned :=
      if bool_decide (count cleaned (u ",") = 1%nat)
         && bool_decide (count cleaned (u ".") = 0%nat)
      then replace cleaned (u ",") (u ".")
      else if bool_decide (1 <= count cleaned (u ","))%nat
      then replace cleaned (u ",") []
      else cleaned in
    float_of_str cleaned.

(** [categorize(description, mcc)] *)
Definition IGNORE_MARKERS : list pystr :=
  [u "повернення боргу"; u "поділ"; u "split check"].

Definition categorize (description mcc : pystr) : pystr * TxType * bool :=
  match (if bool_decide (mcc = []) then None
         else MCC_TO_CATEGORY !! strip mcc) with
  | Some (cat_name, tx_type) => (cat_name, tx_type, false)
  | None =>
    let desc_lower := lower description in
    match List.find (fun rule => any_in rule.1.1 desc_lower) KEYWORD_RULES with
    | Some (_, cat_name, tx_type) =>
      (cat_name, tx_type, any_in IGNORE_MARKERS desc_lower)
    | None => (u "Інше", expense, false)
    end
  end.

(** One entry of the user's category catalogue. *)
Record category := {
  cat_id : pystr;
  cat_name : pystr;
  cat_type : pystr;
}.

Definition tokens (s : pystr) : gset pystr :=
  list_to_set (split (replace s (u "/") (u " "))).

(** [find_category_id(categories, name, tx_type)] *)
Definition find_category_id (categories : list category) (name : pystr)
    (tx_type : TxType) : option pystr :=
  let name_q := strip (lower name) in
  let same_type :=
    filter (fun c => cat_type c = tx_str tx_type) categories in
  match List.find (fun c => str_eqb (strip (lower (cat_name c))) name_q)
                  same_type with
  | Some c => Some (cat_id c)
  | None =>
    match List.find (fun c => let db_name := strip (lower (cat_name c)) in
                              str_in name_q db_name || str_in db_name name_q)
                    same_type with
    | Some c => Some (cat_id c)
    | None =>
      let q_tokens := tokens name_q in
      let '(best_id, best_score) :=
        fold_left
          (fun best c =>
             let db_tokens := tokens (lower (cat_name c)) in
             let score := size (q_tokens ∩ db_tokens) in
             if bool_decide (best.2 < score)%nat
             then (Some (cat_id c), score)
             else best)
          same_type (None, 0%nat) in
      if bool_decide (0 < best_score)%nat then best_id else None
    end
  end.

(** What [parse_csv] and [parse_pdf] emit for one transaction. *)
Record Metadata := {
  raw_category : pystr;
  meta_mcc : pystr;
  meta_bank : BankFormat;
  is_outgoing : option bool;
}.

Record CategorizedRow := {
  row_user_id : pystr;
  row_amount : pyfloat;
  row_type : TxType;
  row_category_id : option pystr;
  row_description : option pystr;
  row_source : pystr;
  row_ignore_in_stats : bool;
  row_transaction_date : pystr;
  row_metadata : Metadata;
}.

(** [(description or "")[:255] or None] *)
Definition truncate_description (d : pystr) : option pystr :=
  match take 255 d with
  | [] => None
  | t => Some t
  end.

(** The two corrections [parse_csv] applies to the categorizer's answer
    once the sign of the amount is known. *)
Definition INCOME_MARKERS_CSV : list pystr :=
  [u "зарплата"; u "зп"; u "salary"; u "аванс"; u "нарахування зп";
   u "від фізичної"].

Definition correct_sign (raw_amount : pyfloat) (description : pystr)
    (cat_name : pystr) (tx_type : TxType) : pystr * TxType :=
  let is_debit := flt raw_amount f_zero in
  let tx_type :=
    if is_debit && bool_decide (tx_type = income) then expense else tx_type in
  if negb is_debit && bool_decide (tx_type = expense)
  then
    let desc_lower := lower description in
    let is_income_kw := any_in INCOME_MARKERS_CSV desc_lower in
    (if is_income_kw then u "Інший дохід" else u "Переказ (інше)",
     if is_income_kw then income else transfer)
  else (cat_name, tx_type).

(** A key of a row of [csv.DictReader]: a header, or [None], under which
    the reader stores the cells a row has beyond the headers. *)
Inductive csv_key :=
| Field (name : pystr)
| RestKey.

Definition csv_row := list (csv_key * option pystr).

(** [k.lower().strip() == key.lower().strip()] scanned over
    [row.items()]; the method call fails on the key [None]. *)
Fixpoint lookup_key (items : csv_row) (key : pystr) : result (option pystr) :=
  match items with
  | [] => Ok None
  | (RestKey, _) :: _ => Raise AttributeError
  | (Field k, v) :: rest =>
    if str_eqb (strip (lower k)) (strip (lower key))
    then Ok (Some (strip (default [] v)))
    else lookup_key rest key
  end.

(** [_get(row, *keys, default="")] *)
Fixpoint _get (row : csv_row) (keys : list pystr) : result pystr :=
  match keys with
  | [] => Ok []
  | key :: keys' =>
    found ← lookup_key row key;
    match found with
    | Some v => Ok v
    | None => _get row keys'
    end
  end.

(** ** The pipelines

    The calendar is the runtime's: the parsers only choose which of
    [datetime.fromtimestamp], [datetime.strptime] and [datetime.now] to
    call.  [strptime raw fmt] is [None] when the call raises [ValueError];
    [now] is one reading of the clock. *)
Class Calendar := {
  datetime : Type;
  fromtimestamp : Z -> result datetime;
  strptime : pystr -> pystr -> option datetime;
  now : datetime;
  isoformat : datetime -> pystr;
}.

Section Ingestion.

Context {calendar : Calendar}.

(** The first format [strptime] accepts. *)
Fixpoint first_format (raw : pystr) (formats : list pystr) : option datetime :=
  match formats with
  | [] => None
  | fmt :: rest =>
    match strptime raw fmt with
    | Some d => Some d
    | None => first_format raw rest
    end
  end.

(** [_parse_date(raw)]; [ValueError] and [OSError] of the timestamp branch
    are caught, any other exception escapes. *)
Definition _parse_date (raw : pystr) : result (option datetime) :=
  if bool_decide (raw = []) || bool_decide (strip raw = []) then Ok None
  else
    let raw := strip raw in
    stamp ←
      (if isdigit raw && bool_decide (9 <= length raw)%nat
       then match int_of_digits raw with
            | None => Ok None
            | Some n =>
              match fromtimestamp n with
              | Ok d => Ok (Some d)
              | Raise (ValueError _) | Raise OSError => Ok None
              | Raise e => Raise e
              end
            end
       else Ok None);
    match stamp with
    | Some d => Ok (Some d)
    | None =>
      Ok (first_format raw
            [u "%d.%m.%Y %H:%M:%S"; u "%d.%m.%Y %H:%M"; u "%d.%m.%Y";
             u "%Y-%m-%d %H:%M:%S"; u "%Y-%m-%d"; u "%d/%m/%Y";
             u "%Y/%m/%d"; u "%d-%m-%Y"])
    end.

(** A transaction as extracted from one row, before categorization. *)
Record RawRow := {
  date : datetime;
  amount : pyfloat;
  description : pystr;
  mcc : pystr;
}.

Definition parse_row_mono (row : csv_row) : result (option RawRow) :=
  date_raw ← _get row [u "Дата і час операції"; u "date"];
  amount_raw ← _get row [u "Сума"; u "Сума у валюті рахунку";
                         u "Сума (у валюті рахунку)"; u "amount"];
  desc_raw ← _get row [u "Деталі операції"; u "Опис"; u "description"];
  mcc_raw ← _get row [u "MCC"; u "Mcc"; u "mcc"];
  match _parse_amount amount_raw with
  | None => Ok None
  | Some amount =>
    d ← _parse_date date_raw;
    Ok (Some {| date := default now d; amount := amount;
                description := desc_raw; mcc := mcc_raw |})
  end.

Definition parse_row_privat (row : csv_row) : result (option RawRow) :=
  date_raw ← _get row [u "Дата і час"; u "Дата"; u "Date"];
  time_raw ← _get row [u "Час"; u "Time"];
  let date_raw :=
    if negb (bool_decide (time_raw = [])) && negb (str_in (u " ") date_raw)
    then date_raw ++ u " " ++ time_raw
    else date_raw in
  amount_raw ← _get row [u "Сума в гривні"; u "Сума"; u "Amount";
                         u "Сума у валюті"];
  desc_raw ← _get row [u "Опис операції"; u "Деталі операції"; u "Деталі";
                       u "Призначення"; u "Description"];
  mcc_raw ← _get row [u "MCC"; u "Mcc"];
  match _parse_amount amount_raw with
  | None => Ok None
  | Some amount =>
    d ← _parse_date date_raw;
    Ok (Some {| date := default now d; amount := amount;
                description := desc_raw; mcc := mcc_raw |})
  end.

(** [x and x > 0] for an optional float [x]. *)
Definition positive_amount (x : option pyfloat) : bool :=
  match x with
  | Some v => float_truthy v && fgt v f_zero
  | None => false
  end.

Definition parse_row_oschadbank (row : csv_row) : result (option RawRow) :=
  date_raw ← _get row [u "Дата операції"; u "Дата проведення"; u "Дата";
                       u "Date"];
  debit_raw ← _get row [u "Дебет"; u "Сума дебету"; u "Debit"];
  credit_raw ← _get row [u "Кредит"; u "Сума кредиту"; u "Credit"];
  desc_raw ← _get row [u "Призначення платежу"; u "Призначення";
                       u "Найменування контрагента"; u "Деталі"];
  let debit := _parse_amount debit_raw in
  let credit := _parse_amount credit_raw in
  match (if positive_amount debit then fneg <$> debit
         else if positive_amount credit then credit
         else None) with
  | None => Ok None
  | Some amount =>
    d ← _parse_date date_raw;
    Ok (Some {| date := default now d; amount := amount;
                description := desc_raw; mcc := [] |})
  end.

Definition parse_row_raiffeisen (row : csv_row) : result (option RawRow) :=
  date_raw ← _get row [u "OPERATION DATE"; u "Operation Date";
                       u "Дата операції"; u "Date"];
  amount_raw ← _get row [u "DOCUMENT AMOUNT"; u "Document Amount";
                         u "Amount"; u "Сума"; u "Сума операції"];
  desc_raw ← _get row [u "TRANSACTION DESCRIPTION";
                       u "Transaction Description"; u "Призначення";
                       u "Description"; u "Деталі"];
  dc_flag ← _get row [u "DEBIT/CREDIT"; u "D/C"; u "Тип операції"; u "Type"];
  match _parse_amount amount_raw with
  | None => Ok None
  | Some amount =>
    let amount :=
      if startswith (upper dc_flag) (u "D") then fneg (fabs amount)
      else if startswith (upper dc_flag) (u "C") then fabs amount
      else amount in
    d ← _parse_date date_raw;
    Ok (Some {| date := default now d; amount := amount;
                description := desc_raw; mcc := [] |})
  end.

Definition parse_row_pumb (row : csv_row) : result (option RawRow) :=
  date_raw ← _get row [u "Дата документу"; u "Дата операції"; u "Дата";
                       u "Date"];
  debit_raw ← _get row [u "Дебет"; u "Сума дебету"; u "Debit"; u "Витрати"];
  credit_raw ← _get row [u "Кредит"; u "Сума кредиту"; u "Credit";
                         u "Надходження"];
  desc_raw ← _get row [u "Призначення"; u "Призначення платежу";
                       u "Найменування контрагента"; u "Опис";
                       u "Description"];
  let debit := _parse_amount debit_raw in
  let credit := _parse_amount credit_raw in
  match (if positive_amount debit then fneg <$> debit
         else if positive_amount credit then credit
         else None) with
  | None => Ok None
  | Some amount =>
    d ← _parse_date date_raw;
    Ok (Some {| date := default now d; amount := amount;
                description := desc_raw; mcc := [] |})
  end.

Definition parse_row_abank (row : csv_row) : result (option RawRow) :=
  date_raw ← _get row [u "Дата"; u "Дата операції"; u "Дата і час";
                       u "Date"];
  income_raw ← _get row [u "Прихід"; u "Надходження"; u "Income";
                         u "Зарахування"];
  expense_raw ← _get row [u "Витрати"; u "Витрата"; u "Списання";
                          u "Expense"];
  desc_raw ← _get row [u "Опис"; u "Деталі"; u "Призначення";
                       u "Description"; u "Найменування"];
  let income_amt := _parse_amount income_raw in
  let expense_amt := _parse_amount expense_raw in
  match (if positive_amount income_amt then income_amt
         else if positive_amount expense_amt then fneg <$> expense_amt
         else None) with
  | None => Ok None
  | Some amount =>
    d ← _parse_date date_raw;
    Ok (Some {| date := default now d; amount := amount;
                description := desc_raw; mcc := [] |})
  end.

(** The four locals of [parse_row_generic]. *)
Record generic_state := {
  g_date : option datetime;
  g_amount : option pyfloat;
  g_desc : pystr;
  g_mcc : pystr;
}.

(** One iteration of its loop over [row.items()]; a cell [None] reads as
    the empty string in each of the four uses. *)
Definition generic_step (st : generic_state) (item : csv_key * option pystr)
    : result generic_state :=
  match item with
  | (RestKey, _) => Raise AttributeError
  | (Field k, v) =>
    let k_lower := lower k in
    let text := default [] v in
    new_date ←
      (if bool_decide (g_date st = None)
          && any_in [u "date"; u "дата"] k_lower
       then _parse_date text else Ok (g_date st));
    let new_amount :=
      if bool_decide (g_amount st = None)
         && any_in [u "amount"; u "сума"; u "sum"] k_lower
      then _parse_amount text else g_amount st in
    let new_desc :=
      if bool_decide (g_desc st = [])
         && any_in [u "desc"; u "опис"; u "detail"; u "reference"; u "note";
                    u "призначення"; u "деталі"] k_lower
      then strip text else g_desc st in
    let new_mcc :=
      if bool_decide (g_mcc st = []) && str_in (u "mcc") k_lower
      then strip text else g_mcc st in
    Ok {| g_date := new_date; g_amount := new_amount;
          g_desc := new_desc; g_mcc := new_mcc |}
  end.

Fixpoint generic_scan (st : generic_state) (items : csv_row)
    : result generic_state :=
  match items with
  | [] => Ok st
  | item :: rest => st' ← generic_step st item; generic_scan st' rest
  end.

Definition parse_row_generic (row : csv_row) : result (option RawRow) :=
  st ← generic_scan {| g_date := None; g_amount := None;
                       g_desc := []; g_mcc := [] |} row;
  match g_amount st with
  | None => Ok None
  | Some amount =>
    Ok (Some {| date := default now (g_date st); amount := amount;
                description := g_desc st; mcc := g_mcc st |})
  end.

(** [parser_map[bank]] *)
Definition parser_map (bank : BankFormat) : csv_row -> result (option RawRow) :=
  match bank with
  | MONO => parse_row_mono
  | PRIVAT => parse_row_privat
  | OSCHADBANK => parse_row_oschadbank
  | RAIFFEISEN => parse_row_raiffeisen
  | PUMB => parse_row_pumb
  | ABANK => parse_row_abank
  | GENERIC => parse_row_generic
  end.

Record ParseResult := {
  rows : list CategorizedRow;
  skipped : nat;
  bank : BankFormat;
}.

(** What [csv.DictReader] hands to [parse_csv]: the headers and the rows
    as dictionaries.  Decoding the bytes and splitting the lines are the
    runtime's. *)
Record DictReader := {
  fieldnames : list pystr;
  records : list csv_row;
}.

(** The part of the loop body of [parse_csv] that follows the extraction:
    [None] when the row is dropped for its amount. *)
Definition csv_emit (user_id : pystr) (categories : list category)
    (bank : BankFormat) (parsed : RawRow) : option CategorizedRow :=
  let raw_amount := amount parsed in
  let abs_amount := fabs raw_amount in
  if flt abs_amount f_0_01 then None
  else
    let '(cat_name, tx_type, ignore) :=
      categorize (description parsed) (mcc parsed) in
    let '(cat_name, tx_type) :=
      correct_sign raw_amount (description parsed) cat_name tx_type in
    let category_id := find_category_id categories cat_name tx_type in
    Some {| row_user_id := user_id;
            row_amount := abs_amount;
            row_type := tx_type;
            row_category_id := category_id;
            row_description := truncate_description (description parsed);
            row_source := u "csv";
            row_ignore_in_stats := ignore;
            row_transaction_date := isoformat (date parsed);
            row_metadata := {| raw_category := cat_name;
                               meta_mcc := mcc parsed;
                               meta_bank := bank;
                               is_outgoing := None |} |}.

(** The loop of [parse_csv] over the rows of the reader. *)
Fixpoint csv_loop (user_id : pystr) (categories : list category)
    (bank : BankFormat) (todo : list csv_row)
    (rows : list CategorizedRow) (skipped : nat)
    : result (list CategorizedRow * nat) :=
  match todo with
  | [] => Ok (rows, skipped)
  | raw_row :: rest =>
    parsed ← parser_map bank raw_row;
    match parsed with
    | None => csv_loop user_id categories bank rest rows (S skipped)
    | Some parsed =>
      match csv_emit user_id categories bank parsed with
      | None => csv_loop user_id categories bank rest rows (S skipped)
      | Some row =>
        csv_loop user_id categories bank rest (rows ++ [row]) skipped
      end
    end
  end.

(** [parse_csv(content, user_id, categories)], from the reader on. *)
Definition parse_csv (reader : DictReader) (user_id : pystr)
    (categories : list category) : result ParseResult :=
  match fieldnames reader with
  | [] => Ok {| rows := []; skipped := 0; bank := GENERIC |}
  | headers =>
    let bank := detect_bank headers in
    out ← csv_loop user_id categories bank (records reader) [] 0;
    Ok {| rows := out.1; skipped := out.2; bank := bank |}
  end.

(** * [pdf_parser.py] *)

Inductive total_value :=
| TAmount (x : option pyfloat)
| TText (s : pystr).

Abbreviation BankTotals := (gmap pystr total_value).

Record PDFParseResult := {
  pdf_result : ParseResult;
  bank_totals : BankTotals;
}.

(** A cell of a table of [pdfplumber] is a string or [None]; a page
    offers its text and its tables under the two extraction settings the
    parsers use. *)
Definition cell := option pystr.
Definition table := list (list cell).

Record page := {
  extract_text : option pystr;
  tables_by_lines : list table;
  tables_by_text : list table;
}.

Definition pdf_document := list page.

(** [str(c or "").strip()] *)
Definition cell_text (c : cell) : pystr := strip (default [] c).

(** The header patterns of an A-Bank statement. *)
Definition total_pattern (label : pystr) : regex :=
  Seq (lit_i label)
  (Seq (plus (Cls (fun c => (c =? 58) || isspace c)))
  (Seq (Grp (Seq (plus (Cls (fun c => is_decimal c || isspace c)))
            (Seq (Cls (one_of (u ".,"))) (times re_d 2))))
  (Seq (star re_s) (lit_i (u "UAH"))))).

Definition _RE_EXPENSES := total_pattern (u "Сума витрат за період").
Definition _RE_INCOME := total_pattern (u "Сума зарахувань за період").
Definition _RE_BAL_START := total_pattern (u "Баланс на початок періоду").
Definition _RE_BAL_END := total_pattern (u "Баланс на кінець періоду").

Definition re_date : regex :=
  Seq (times re_d 2) (Seq (chr 46) (Seq (times re_d 2)
  (Seq (chr 46) (times re_d 4)))).

Definition _RE_PERIOD : regex :=
  Seq (lit (u "Період"))
  (Seq (plus (Cls (fun c => (c =? 58) || isspace c)))
  (Seq (Grp re_date)
  (Seq (star re_s) (Seq (Cls (one_of (u "-–")))
  (Seq (star re_s) (Grp re_date)))))).

(** [_amount_from_match(m)] for a match [m] with groups [caps]. *)
Definition _amount_from_match (caps : list pystr) : option pyfloat :=
  float_of_str (replace (replace (default [] (caps !! 0%nat)) (u " ") [])
                        (u ",") (u ".")).

Definition set_total (key : pystr) (pattern : regex) (text : pystr)
    (totals : BankTotals) : BankTotals :=
  match re_search pattern text with
  | Some caps => <[key := TAmount (_amount_from_match caps)]> totals
  | None => totals
  end.

(** [_extract_abank_header(pdf)], given the text of the first page. *)
Definition _extract_abank_header (first : page) : BankTotals :=
  let text := default [] (extract_text first) in
  let totals := set_total (u "expenses") _RE_EXPENSES text ∅ in
  let totals := set_total (u "income") _RE_INCOME text totals in
  let totals := set_total (u "balance_start") _RE_BAL_START text totals in
  let totals := set_total (u "balance_end") _RE_BAL_END text totals in
  match re_search _RE_PERIOD text with
  | Some caps =>
    <[u "period_to" := TText (default [] (caps !! 1%nat))]>
      (<[u "period_from" := TText (default [] (caps !! 0%nat))]> totals)
  | None => totals
  end.

Definition is_Some_b {A} (x : option A) : bool :=
  match x with Some _ => true | None => false end.

(** [_is_abank_table(table)] *)
Definition _is_abank_table (tbl : table) : bool :=
  match tbl with
  | [] | [_] => false
  | head :: body =>
    if negb (bool_decide (length head = 11%nat)) then false
    else
      existsb
        (fun row =>
           if bool_decide (length row < 5)%nat then false
           else is_Some_b (re_match re_date (cell_text (row !!! 0%nat)))
                && is_Some_b (re_match (Rep re_d 3 (Some 4%nat))
                                       (cell_text (row !!! 3%nat))))
        (take 3 body)
  end.

(** [re.sub(r'(?<=\d) (?=\d)', '', s)]: the spaces that stand between two
    digits of [s] are removed; [prev] is the character before [s]. *)
Fixpoint drop_digit_spaces (prev : option N) (s : pystr) : pystr :=
  match s with
  | [] => []
  | c :: s' =>
    let between :=
      (c =? 32)
      && match prev with Some p => is_decimal p | None => false end
      && match s' with n :: _ => is_decimal n | [] => false end in
    if between then drop_digit_spaces (Some c) s'
    else c :: drop_digit_spaces (Some c) s'
  end.

(** [_parse_abank_amount(raw)] *)
Definition _parse_abank_amount (raw : pystr) : option pyfloat :=
  if bool_decide (raw = []) || bool_decide (strip raw = []) then None
  else float_of_str (drop_digit_spaces None (strip raw)).

(** [_parse_abank_date(raw)] *)
Definition _parse_abank_date (raw : pystr) : option datetime :=
  if bool_decide (raw = []) then None
  else first_format (strip (replace raw [10] (u " ")))
         [u "%d.%m.%Y %H:%M"; u "%d.%m.%Y %H:%M:%S"; u "%d.%m.%Y"].

(** [_is_garbage(text)] *)
Definition _is_garbage (text : pystr) : bool :=
  if bool_decide (text = []) then true
  else
    let bad :=
      length (List.filter (fun c => (c <? 32) || (c =? 65533)
                                    || one_of (u "•□■") c) text) in
    fgt (fdiv (float_of_Z (Z.of_nat bad))
              (float_of_Z (Z.of_nat (max (length text) 1))))
        f_0_5.

(** The body of the loop of [_extract_abank_rows]: [None] for a row that
    is skipped. *)
Definition abank_row (row : list cell) : option RawRow :=
  if bool_decide (length row < 5)%nat then None
  else
    let date_raw := cell_text (row !!! 0%nat) in
    let desc_raw := cell_text (row !!! 2%nat) in
    let mcc_raw := cell_text (row !!! 3%nat) in
    let amt_raw := cell_text (row !!! 4%nat) in
    if negb (is_Some_b (re_match re_date date_raw)) then None
    else
      match _parse_abank_amount amt_raw with
      | None => None
      | Some amount =>
        let date := default now (_parse_abank_date date_raw) in
        let desc_raw := if _is_garbage desc_raw then [] else desc_raw in
        Some {| date := date; amount := amount;
                description := desc_raw; mcc := mcc_raw |}
      end.

(** The extractors share their loop: the rows a body accepts, in order,
    and the number of rows it skips. *)
Fixpoint extract_rows (body : list cell -> option RawRow)
    (todo : list (list cell)) : list RawRow * nat :=
  match todo with
  | [] => ([], 0%nat)
  | row :: rest =>
    let '(out, skipped) := extract_rows body rest in
    match body row with
    | Some r => (r :: out, skipped)
    | None => (out, S skipped)
    end
  end.

(** [_extract_abank_rows(table)] *)
Definition _extract_abank_rows (tbl : table) : list RawRow * nat :=
  extract_rows abank_row (drop 1 tbl).

(** [_is_monobank_table(table)] *)
Definition _is_monobank_table (tbl : table) : bool :=
  match tbl with
  | [] | [_] => false
  | head :: _ =>
    if negb (bool_decide (length head = 10%nat)) then false
    else str_in (u "Дата") (default [] (head !!! 0%nat))
  end.

(** The body of the loop of [_extract_monobank_rows]. *)
Definition monobank_row (row : list cell) : option RawRow :=
  if bool_decide (length row < 4)%nat then None
  else
    let date_raw := cell_text (row !!! 0%nat) in
    if bool_decide (date_raw = []) || str_in (u "Дата") date_raw then None
    else
      let desc_raw := replace (cell_text (row !!! 1%nat)) [10] (u " ") in
      let mcc_raw := cell_text (row !!! 2%nat) in
      let amt_raw := cell_text (row !!! 3%nat) in
      match _parse_abank_amount amt_raw with
      | None => None
      | Some amount =>
        let date := default now (_parse_abank_date date_raw) in
        let desc_raw :=
          if _is_garbage desc_raw
          then (if bool_decide (mcc_raw = []) then u "Без опису"
                else u "Переказ")
          else desc_raw in
        let final_desc :=
          if bool_decide (mcc_raw = []) then desc_raw
          else desc_raw ++ u " (MCC " ++ mcc_raw ++ u ")" in
        Some {| date := date; amount := amount;
                description := final_desc; mcc := mcc_raw |}
      end.

(** [_extract_monobank_rows(table)] *)
Definition _extract_monobank_rows (tbl : table) : list RawRow * nat :=
  extract_rows monobank_row (drop 1 tbl).

Definition ALWAYS_TRANSFER_MCC : gset pystr :=
  {[ u "6010"; u "6011"; u "6012"; u "6051"; u "6050" ]}.

Definition TRANSFER_OUT_KEYWORDS : list pystr :=
  [u "депозит"; u "вклад"; u "накопич"; u "на банку"; u "заощадж";
   u "скарбничк"].

Definition INCOME_KEYWORDS : list pystr :=
  [u "зарплата"; u "зп"; u "salary"; u "аванс"; u "виплата";
   u "нарахування зп"; u "заробітна плата"; u "фріланс"; u "надходження";
   u "повернення"].

(** The classes of [_RE_PERSON_NAME]: the capital letters
    [А-ЯІЇЄҐ] and the small letters with the apostrophe and the hyphen. *)
Definition cyr_upper (c : N) : bool :=
  in_ranges c [(1040, 1071)] || one_of [1030; 1031; 1028; 1168] c.

Definition cyr_lower (c : N) : bool :=
  in_ranges c [(1072, 1103)] || one_of [1110; 1111; 1108; 1169; 39; 45] c.

Definition name_word : regex :=
  Seq (Cls cyr_upper) (Rep (Cls cyr_lower) 1 (Some 20%nat)).

Definition _RE_PERSON_NAME : regex :=
  Seq name_word
  (Seq (Rep (Seq (Cls (fun c => isspace c || (c =? 45))) name_word)
            1 (Some 3%nat))
       Eos).

(** The class [[\d@.,/*&#(){}\[\]|]]. *)
Definition name_forbidden (c : N) : bool :=
  is_decimal c || one_of (u "@.,/*&#(){}[]|") c.

(** [_is_person_name(text)] *)
Definition _is_person_name (text : pystr) : bool :=
  if bool_decide (text = []) || bool_decide (length text < 5)%nat then false
  else if is_Some_b (re_search (Cls name_forbidden) text) then false
  else
    let words := split text in
    if bool_decide (length words < 2)%nat || bool_decide (4 < length words)%nat
    then false
    else is_Some_b (re_match _RE_PERSON_NAME (strip text)).

(** [_classify_transaction(raw_amount, description, mcc)] *)
Definition _classify_transaction (raw_amount : pyfloat)
    (description mcc : pystr) : pystr * TxType * bool :=
  let desc_lower := lower description in
  let is_positive := fgt raw_amount f_zero in
  if _is_person_name description then (u "Переказ (людині)", transfer, false)
  else if bool_decide (mcc ∈ ALWAYS_TRANSFER_MCC) then
    if is_positive then
      if any_in INCOME_KEYWORDS desc_lower
      then (u "Інший дохід", income, false)
      else if str_eqb mcc (u "4829") then (u "Інший дохід", income, false)
      else (u "Переказ (інше)", transfer, false)
    else
      if any_in TRANSFER_OUT_KEYWORDS desc_lower
      then (u "Інвестиції/Скарбничка", transfer, false)
      else (u "Переказ (інше)", transfer, false)
  else if is_positive then
    if any_in TRANSFER_OUT_KEYWORDS desc_lower
    then (u "Переказ (інше)", transfer, false)
    else if any_in [u "зарплата"; u "зп"; u "salary"; u "аванс"] desc_lower
    then (u "Зарплата", income, false)
    else if any_in [u "фріланс"; u "freelance"; u "upwork"] desc_lower
    then (u "Фріланс", income, false)
    else
      let '(cat_name, tx_type, ignore) := categorize description mcc in
      if bool_decide (tx_type = expense) then (u "Інший дохід", income, false)
      else (cat_name, tx_type, ignore)
  else
    let '(cat_name, tx_type, ignore) := categorize description mcc in
    if bool_decide (tx_type = income) then (u "Інше", expense, false)
    else (cat_name, tx_type, ignore).

(** The body of the loop of [_process_raw_rows]: [None] when the row is
    dropped for its amount. *)
Definition pdf_emit (user_id : pystr) (categories : list category)
    (bank : BankFormat) (parsed : RawRow) : option CategorizedRow :=
  let raw_amount := amount parsed in
  let abs_amount := fabs raw_amount in
  if flt abs_amount f_0_01 then None
  else
    let '(cat_name, tx_type, ignore) :=
      _classify_transaction raw_amount (description parsed) (mcc parsed) in
    let category_id := find_category_id categories cat_name tx_type in
    Some {| row_user_id := user_id;
            row_amount := abs_amount;
            row_type := tx_type;
            row_category_id := category_id;
            row_description := truncate_description (description parsed);
            row_source := u "csv";
            row_ignore_in_stats := ignore;
            row_transaction_date := isoformat (date parsed);
            row_metadata := {| raw_category := cat_name;
                               meta_mcc := mcc parsed;
                               meta_bank := bank;
                               is_outgoing := Some (flt raw_amount f_zero) |} |}.

Fixpoint process_loop (user_id : pystr) (categories : list category)
    (bank : BankFormat) (todo : list RawRow)
    (out_rows : list CategorizedRow) (total_skipped : nat)
    : list CategorizedRow * nat :=
  match todo with
  | [] => (out_rows, total_skipped)
  | parsed :: rest =>
    match pdf_emit user_id categories bank parsed with
    | None =>
      process_loop user_id categories bank rest out_rows (S total_skipped)
    | Some row =>
      process_loop user_id categories bank rest (out_rows ++ [row])
                   total_skipped
    end
  end.

(** [_process_raw_rows(raw_rows, total_skipped, bank, bank_totals,
    user_id, categories)] *)
Definition _process_raw_rows (raw_rows : list RawRow) (total_skipped : nat)
    (bank : BankFormat) (bank_totals : BankTotals) (user_id : pystr)
    (categories : list category) : PDFParseResult :=
  let out := process_loop user_id categories bank raw_rows [] total_skipped in
  {| pdf_result := {| rows := out.1; skipped := out.2; bank := bank |};
     bank_totals := bank_totals |}.

(** The tables of a page: by ruled lines, and by text alignment when
    there are none. *)
Definition page_tables (pg : page) : list table :=
  match tables_by_lines pg with
  | [] => tables_by_text pg
  | tbls => tbls
  end.

(** The loops of [_parse_abank_pdf] and [_parse_monobank_pdf] over the
    pages and their tables. *)
Fixpoint collect_tables (accept : table -> bool)
    (extract : table -> list RawRow * nat) (tbls : list table)
    (raw_rows : list RawRow) (total_skipped : nat) : list RawRow * nat :=
  match tbls with
  | [] => (raw_rows, total_skipped)
  | tbl :: rest =>
    if bool_decide (tbl = []) then
      collect_tables accept extract rest raw_rows total_skipped
    else if accept tbl then
      let '(found, skipped) := extract tbl in
      collect_tables accept extract rest (raw_rows ++ found)
                     (total_skipped + skipped)
    else collect_tables accept extract rest raw_rows total_skipped
  end.

Fixpoint collect_pages (accept : table -> bool)
    (extract : table -> list RawRow * nat) (pages : list page)
    (raw_rows : list RawRow) (total_skipped : nat) : list RawRow * nat :=
  match pages with
  | [] => (raw_rows, total_skipped)
  | pg :: rest =>
    let '(raw_rows, total_skipped) :=
      collect_tables accept extract (page_tables pg) raw_rows total_skipped in
    collect_pages accept extract rest raw_rows total_skipped
  end.

(** [_parse_abank_pdf(pdf, user_id, categories)]; a document without
    pages has no header, which the source catches. *)
Definition _parse_abank_pdf (pdf : pdf_document) (user_id : pystr)
    (categories : list category) : PDFParseResult :=
  let bank_totals :=
    match pdf with
    | first :: _ => _extract_abank_header first
    | [] => ∅
    end in
  let '(raw_rows, total_skipped) :=
    collect_pages _is_abank_table _extract_abank_rows pdf [] 0 in
  match raw_rows with
  | [] => {| pdf_result := {| rows := []; skipped := total_skipped;
                              bank := ABANK |};
             bank_totals := bank_totals |}
  | _ => _process_raw_rows raw_rows total_skipped ABANK bank_totals
                           user_id categories
  end.

(** [_parse_monobank_pdf(pdf, user_id, categories)] *)
Definition _parse_monobank_pdf (pdf : pdf_document) (user_id : pystr)
    (categories : list category) : PDFParseResult :=
  let '(raw_rows, total_skipped) :=
    collect_pages _is_monobank_table _extract_monobank_rows pdf [] 0 in
  match raw_rows with
  | [] => {| pdf_result := {| rows := []; skipped := total_skipped;
                              bank := MONO |};
             bank_totals := ∅ |}
  | _ => _process_raw_rows raw_rows total_skipped MONO ∅ user_id categories
  end.

Definition UNKNOWN_FORMAT : pystr :=
  u "Невідомий формат виписки. Підтримувані формати: Monobank, А-Банк.".

(** [parse_pdf(content, user_id, categories)], from the opened document
    on: [pdf.pages[0]] fails on a document without pages. *)
Definition parse_pdf (pdf : pdf_document) (user_id : pystr)
    (categories : list category) : result PDFParseResult :=
  match pdf with
  | [] => Raise IndexError
  | first :: _ =>
    let first_page_text := default [] (extract_text first) in
    let text_lower := lower first_page_text in
    if str_in (u "monobank") text_lower
       || str_in (u "універсал банк") text_lower
       || str_in (u "universal bank") text_lower
    then Ok (_parse_monobank_pdf pdf user_id categories)
    else if str_in (u "а-банк") text_lower
            || str_in (u "акцент-банк") text_lower
    then Ok (_parse_abank_pdf pdf user_id categories)
    else Raise (ValueError UNKNOWN_FORMAT)
  end.

End Ingestion.

(** * What the statements speak of *)

(** The names [parse_pdf] looks for on the first page. *)
Definition BANK_NAMES : list pystr :=
  [u "monobank"; u "універсал банк"; u "universal bank"; u "а-банк";
   u "акцент-банк"].

(** The label of the person-name rule of [_classify_transaction]. *)
Definition PERSON_TRANSFER : pystr := u "Переказ (людині)".

(** The detector read as the specification words it: an ordered list of
    signature rules over the normalised headers, of which the first that
    matches decides, with [GENERIC] when none does. *)
Definition normalise_headers (headers : list pystr) : gset pystr :=
  list_to_set (map (fun h => strip (lower h)) headers).

Definition SIGNATURE_RULES : list ((gset pystr -> bool) * BankFormat) :=
  [ (fun h => has h (u "mcc") && any_has h (u "деталі операції"), MONO);
    (fun h => any_has h (u "дата і час операції"), MONO);
    (fun h => any_has h (u "дата і час") && any_has h (u "опис операції"),
     PRIVAT);
    (fun h => any_has h (u "деталі операції") && has h (u "категорія"),
     PRIVAT);
    (fun h => any_has h (u "призначення платежу")
              && (any_has h (u "дебет") || any_has h (u "кредит")),
     OSCHADBANK);
    (fun h => any_has h (u "призначення платежу"), OSCHADBANK);
    (fun h => any_has h (u "operation date"), RAIFFEISEN);
    (fun h => existsb (fun x => str_in (u "document amount") x
                                || str_in (u "операція") x) (elements h)
              && has h (u "amount"),
     RAIFFEISEN);
    (fun h => any_has h (u "дата документу") && any_has h (u "призначення"),
     PUMB);
    (fun h => existsb (fun x => str_in (u "пумб") x || str_in (u "pumb") x)
                      (elements h),
     PUMB);
    (fun h => any_has h (u "прихід") || any_has h (u "витрати"), ABANK);
    (fun h => existsb (fun x => str_in (u "abank") x || str_in (u "а-банк") x)
                      (elements h),
     ABANK) ].

Definition first_matching_rule (h : gset pystr) : BankFormat :=
  match List.find (fun rule => rule.1 h) SIGNATURE_RULES with
  | Some rule => rule.2
  | None => GENERIC
  end.

(** [float_is_ratio x num den]: the float [x] is finite and its value is
    exactly [num / den]. *)
Definition float_is_ratio (x : pyfloat) (num den : Z) : bool :=
  match x with
  | S754_zero _ => (num =? 0)%Z
  | S754_finite s m e =>
    let sm := if s then Z.neg m else Z.pos m in
    match e with
    | Zneg k => (sm * den =? num * Z.pos (2 ^ k))%Z
    | _ => (sm * 2 ^ e * den =? num)%Z
    end
  | _ => false
  end.

(** A calendar for the examples: a date is kept as the text it was read
    from, and the clock shows one fixed instant. *)
Definition text_calendar : Calendar := {|
  datetime := pystr;
  fromtimestamp := fun _ => Raise OSError;
  strptime := fun raw _ => Some raw;
  now := u "2026-01-31T08:48:00";
  isoformat := fun d => d;
|}.

(** A CSV export with the single column [Сума] and the single row [nan]. *)
Definition nan_reader : DictReader := {|
  fieldnames := [u "Сума"];
  records := [[(Field (u "Сума"), Some (u "nan"))]];
|}.

(** A Monobank PDF table (ten columns) whose one data row carries the
    amount [amt], the description [desc] and the MCC cell [code]. *)
Definition mono_table (desc code amt : pystr) : table :=
  [ [Some (u "Дата і час операції"); Some (u "Деталі операції");
     Some (u "MCC"); Some (u "Сума"); None; None; None; None; None; None];
    [Some (u "31.01.2026"); Some desc; Some code; Some amt; None; None;
     None; None; None; None] ].

Definition mono_pdf (desc code amt : pystr) : pdf_document :=
  [ {| extract_text := Some (u "Universal Bank / monobank");
       tables_by_lines := [mono_table desc code amt];
       tables_by_text := [] |} ].

(** A Monobank CSV export with one row. *)
Definition mono_reader (desc code amt : pystr) : DictReader := {|
  fieldnames := [u "Дата і час операції"; u "Деталі операції"; u "MCC";
                 u "Сума"];
  records := [[(Field (u "Дата і час операції"), Some (u "01.01.2025 10:00"));
               (Field (u "Деталі операції"), Some desc);
               (Field (u "MCC"), Some code);
               (Field (u "Сума"), Some amt)]];
|}.

(** A catalogue with one income and two expense categories. *)
Definition small_catalogue : list category :=
  [ {| cat_id := u "c1"; cat_name := u "Зарплата"; cat_type := u "income" |};
    {| cat_id := u "c2"; cat_name := u "Супермаркети";
       cat_type := u "expense" |};
    {| cat_id := u "c3"; cat_name := u "Зарплата / Аванс";
       cat_type := u "expense" |} ].

(** A PDF whose first page names no supported bank. *)
Definition privat_pdf : pdf_document :=
  [ {| extract_text := Some (u "ПриватБанк. Виписка за період");
       tables_by_lines := []; tables_by_text := [] |} ].

(** Extracted rows for the examples. *)
Definition supermarket_row : @RawRow text_calendar := {|
  date := u "01.01.2025 10:00" : @datetime text_calendar;
  amount := float_of_decimal true 15000 (-2);
  description := u "СУПЕРМАРКЕТ ABC";
  mcc := u "5411";
|}.

Definition salary_debit : @RawRow text_calendar := {|
  date := u "01.01.2025 10:00" : @datetime text_calendar;
  amount := float_of_decimal true 100000 (-2);
  description := u "зарплата";
  mcc := [];
|}.

Definition person_with_mcc : @RawRow text_calendar := {|
  date := u "31.01.2026" : @datetime text_calendar;
  amount := float_of_decimal true 30000 (-2);
  description := u "Іван Петренко (MCC 4829)";
  mcc := u "4829";
|}.

(** The rows below the header in the tables of a document that a
    recogniser accepts, over all pages. *)
Definition recognised_rows (accept : table -> bool) (pdf : pdf_document)
    : nat :=
  sum_list_with
    (fun tbl => if bool_decide (tbl = []) then 0%nat
                else if accept tbl then (length tbl - 1)%nat else 0%nat)
    (mjoin (map page_tables pdf)).

(** The keys [_extract_abank_header] may set. *)
Definition HEADER_KEYS : gset pystr :=
  {[ u "expenses"; u "income"; u "balance_start"; u "balance_end";
     u "period_from"; u "period_to" ]}.

(** A capital Cyrillic letter followed by one to twenty characters of the
    small class of [_RE_PERSON_NAME]. *)
Definition plain_name_word (w : pystr) : Prop :=
  match w with
  | c :: ls =>
    cyr_upper c = true /\ (1 <= length ls <= 20)%nat
    /\ Forall (fun x => cyr_lower x = true) ls
  | [] => False
  end.

(** The text after the first word of a name: each further word behind a
    space. *)
Fixpoint spaced (ws : list pystr) : pystr :=
  match ws with
  | [] => []
  | w :: rest => 32 :: w ++ spaced rest
  end.

(** A credited salary, as a row extractor would return it. *)
Definition salary_credit : @RawRow text_calendar := {|
  date := u "01.01.2025 10:00" : @datetime text_calendar;
  amount := float_of_decimal false 100000 (-2);
  description := u "зарплата";
  mcc := [];
|}.

(** A CSV export of no known bank whose one record has a cell more than
    the header has columns. *)
Definition ragged_reader : DictReader := {|
  fieldnames := [u "Date"; u "Amount"];
  records := [[(Field (u "Date"), Some (u "01.01.2025"));
               (Field (u "Amount"), Some (u "-5"));
               (RestKey, Some (u "extra"))]];
|}.

(** A record of an Oschadbank export with a debit. *)
Definition oschadbank_debit : csv_row :=
  [ (Field (u "Дата операції"), Some (u "01.01.2025"));
    (Field (u "Призначення платежу"), Some (u "Оплата послуг"));
    (Field (u "Дебет"), Some (u "150,00"));
    (Field (u "Кредит"), Some (u "")) ].

(** The first page of an A-Bank statement: the header with the period
    and the expenses, and a table (eleven columns) with one operation
    and one short row. *)
Definition abank_page : page := {|
  extract_text :=
    Some (u "АТ А-БАНК. Період: 01.01.2026 - 31.01.2026. Сума витрат за період: 1 234,56 UAH");
  tables_by_lines :=
    [ [ [Some (u "Дата"); Some (u "Час"); Some (u "Деталі"); Some (u "MCC");
         Some (u "Сума"); None; None; None; None; None; None];
        [Some (u "05.01.2026"); Some (u "10:15"); Some (u "АТБ МАРКЕТ");
         Some (u "5411"); Some (u "-150.00"); None; None; None; None; None;
         None];
        [Some (u "Разом"); None] ] ];
  tables_by_text := [];
|}.

(** * Properties *)

(** String literals are compared by evaluation ([vm_compute]), never
    unfolded by the unifier. *)
Opaque u.

Section Properties.

Context {calendar : Calendar}.

(** ** The amount threshold *)

(** On floats, "not below" is "at least" except for NaN. *)
Lemma not_below_is_at_least (x : pyfloat) :
  x ≠ S754_nan ->
  flt (fabs x) f_0_01 = false ->
  fge (fabs x) f_0_01 = true.
Proof.
  intros Hnan. unfold flt, fge, SFltb, SFleb.
  destruct x as [s | s | | s m e]; try congruence; try reflexivity.
  - discriminate.
  - change f_0_01 with (S754_finite false 5764607523034235 (-59)).
    cbn [fabs SFabs SFcompare].
    rewrite (Z.compare_antisym e (-59)).
    destruct (e ?= -59)%Z eqn:He; cbn [CompOpp]; try reflexivity; try discriminate.
    change (PosDef.Pos.compare_cont Eq 5764607523034235 m)
      with (Pos.compare_cont (CompOpp Eq) 5764607523034235 m).
    rewrite <- (Pos.compare_cont_antisym m 5764607523034235 Eq).
    change PosDef.Pos.compare_cont with Pos.compare_cont.
    destruct (Pos.compare_cont Eq m 5764607523034235); cbn [CompOpp];
      try reflexivity; discriminate.
Qed.

(** What [csv_emit] puts into the row it emits. *)
Lemma csv_emit_Some user_id categories bk (parsed : RawRow) row :
  csv_emit user_id categories bk parsed = Some row ->
  let c := categorize (description parsed) (mcc parsed) in
  let cs := correct_sign (amount parsed) (description parsed) c.1.1 c.1.2 in
  flt (fabs (amount parsed)) f_0_01 = false
  /\ row_amount row = fabs (amount parsed)
  /\ row_source row = u "csv"
  /\ row_type row = cs.2
  /\ raw_category (row_metadata row) = cs.1
  /\ row_category_id row = find_category_id categories cs.1 cs.2
  /\ row_ignore_in_stats row = c.2.
Proof.
  unfold csv_emit. intros H.
  destruct (flt (fabs (amount parsed)) f_0_01) eqn:Hlt; [discriminate|].
  destruct (categorize (description parsed) (mcc parsed)) as [[cat ty] ig].
  cbn [fst snd].
  destruct (correct_sign (amount parsed) (description parsed) cat ty)
    as [cat' ty'].
  injection H as <-. cbn [fst snd row_amount row_source row_type row_metadata
    raw_category row_category_id row_ignore_in_stats].
  repeat split.
Qed.

Lemma csv_emit_None user_id categories bk (parsed : RawRow) :
  csv_emit user_id categories bk parsed = None <->
  flt (fabs (amount parsed)) f_0_01 = true.
Proof.
  unfold csv_emit.
  destruct (flt (fabs (amount parsed)) f_0_01); [tauto|].
  destruct (categorize _ _) as [[cat ty] ig].
  destruct (correct_sign _ _ cat ty). split; discriminate.
Qed.

(** What [pdf_emit] puts into the row it emits. *)
Lemma pdf_emit_Some user_id categories bk (parsed : RawRow) row :
  pdf_emit user_id categories bk parsed = Some row ->
  let c := _classify_transaction (amount parsed) (description parsed)
                                 (mcc parsed) in
  flt (fabs (amount parsed)) f_0_01 = false
  /\ row_amount row = fabs (amount parsed)
  /\ row_source row = u "csv"
  /\ row_type row = c.1.2
  /\ raw_category (row_metadata row) = c.1.1
  /\ is_outgoing (row_metadata row) = Some (flt (amount parsed) f_zero).
Proof.
  unfold pdf_emit. intros H.
  destruct (flt (fabs (amount parsed)) f_0_01) eqn:Hlt; [discriminate|].
  destruct (_classify_transaction _ _ _) as [[cat ty] ig].
  injection H as <-. cbn [fst snd row_amount row_source row_type row_metadata
    raw_category is_outgoing].
  repeat split.
Qed.

Lemma pdf_emit_None user_id categories bk (parsed : RawRow) :
  pdf_emit user_id categories bk parsed = None <->
  flt (fabs (amount parsed)) f_0_01 = true.
Proof.
  unfold pdf_emit.
  destruct (flt (fabs (amount parsed)) f_0_01); [tauto|].
  destruct (_classify_transaction _ _ _) as [[cat ty] ig].
  split; discriminate.
Qed.

(** The loop of [parse_csv]: every row it adds was emitted for a row the
    extractor accepted, and every input row is either emitted or counted
    as skipped. *)
Lemma csv_loop_inv user_id categories bk (P : CategorizedRow -> Prop) :
  forall todo acc sk out sk',
  csv_loop user_id categories bk todo acc sk = Ok (out, sk') ->
  Forall P acc ->
  (forall raw_row parsed row,
     raw_row ∈ todo ->
     parser_map bk raw_row = Ok (Some parsed) ->
     csv_emit user_id categories bk parsed = Some row -> P row) ->
  Forall P out
  /\ (length out + sk' = length acc + sk + length todo)%nat.
Proof.
  induction todo as [|raw_row rest IH]; intros acc sk out sk' Hrun Hacc Hstep.
  - injection Hrun as <- <-. split; [done | cbn; lia].
  - cbn [csv_loop] in Hrun.
    destruct (parser_map bk raw_row) as [[parsed|]|e] eqn:Hparse;
      cbn [mbind result_bind] in Hrun; try discriminate.
    + destruct (csv_emit user_id categories bk parsed) as [row|] eqn:Hemit.
      * apply IH in Hrun as [Hout Hlen].
        -- split; [done|]. rewrite length_app in Hlen. cbn in *. lia.
        -- apply Forall_app. split; [done|].
           constructor; [|constructor].
           eapply Hstep; [left | exact Hparse | exact Hemit].
        -- intros r p w Hin. apply Hstep. by right.
      * apply IH in Hrun as [Hout Hlen]; [| done |].
        -- split; [done|]. cbn in *. lia.
        -- intros r p w Hin. apply Hstep. by right.
    + apply IH in Hrun as [Hout Hlen]; [| done |].
      * split; [done|]. cbn in *. lia.
      * intros r p w Hin. apply Hstep. by right.
Qed.

(** The loop of [_process_raw_rows], likewise. *)
Lemma process_loop_inv user_id categories bk (P : CategorizedRow -> Prop) :
  forall todo acc sk,
  Forall P acc ->
  (forall parsed row,
     parsed ∈ todo ->
     pdf_emit user_id categories bk parsed = Some row -> P row) ->
  let out := process_loop user_id categories bk todo acc sk in
  Forall P out.1
  /\ (length out.1 + out.2 = length acc + sk + length todo)%nat.
Proof.
  induction todo as [|parsed rest IH]; intros acc sk Hacc Hstep.
  - cbn. split; [done | lia].
  - cbn [process_loop].
    destruct (pdf_emit user_id categories bk parsed) as [row|] eqn:Hemit.
    + destruct (IH (acc ++ [row]) sk) as [Hout Hlen].
      * apply Forall_app. split; [done|].
        constructor; [|constructor]. eapply Hstep; [left | exact Hemit].
      * intros p w Hin. apply Hstep. by right.
      * cbn zeta. split; [done|]. rewrite length_app in Hlen. cbn in *. lia.
    + destruct (IH acc (S sk)) as [Hout Hlen]; [done | |].
      * intros p w Hin. apply Hstep. by right.
      * cbn zeta. split; [done|]. cbn in *. lia.
Qed.

(** C1, the part that holds of both pipelines: a row that is emitted
    carries the absolute value of the extracted amount, that value is not
    below 0.01, and a row whose absolute amount is below 0.01 is dropped
    and counted.  Only for a NaN amount does "not below" differ from "at
    least". *)
Lemma emitted_amount_not_below user_id categories bk (parsed : RawRow) row :
  csv_emit user_id categories bk parsed = Some row
  \/ pdf_emit user_id categories bk parsed = Some row ->
  row_amount row = fabs (amount parsed)
  /\ flt (row_amount row) f_0_01 = false
  /\ (amount parsed <> S754_nan -> fge (row_amount row) f_0_01 = true).
Proof.
  intros [H | H].
  - apply csv_emit_Some in H as (Hlt & Ham & _). rewrite Ham.
    repeat split; [done|]. intros Hn. by apply not_below_is_at_least.
  - apply pdf_emit_Some in H as (Hlt & Ham & _). rewrite Ham.
    repeat split; [done|]. intros Hn. by apply not_below_is_at_least.
Qed.

Lemma parse_csv_counts reader user_id categories res :
  fieldnames reader <> [] ->
  parse_csv reader user_id categories = Ok res ->
  (length (rows res) + skipped res = length (records reader))%nat.
Proof.
  unfold parse_csv. intros Hf.
  destruct (fieldnames reader) as [|h hs]; [done|].
  destruct (csv_loop _ _ _ _ _ _) as [[out sk]|e] eqn:Hrun;
    cbn [mbind result_bind]; [|discriminate].
  intros [= <-]. cbn [rows skipped fst snd].
  apply (csv_loop_inv _ _ _ (fun _ => True)) in Hrun as [_ Hlen]; [|done|done].
  cbn in Hlen. lia.
Qed.

Lemma process_raw_rows_counts raw_rows sk bk totals user_id categories :
  let res := pdf_result (_process_raw_rows raw_rows sk bk totals user_id
                                           categories) in
  (length (rows res) + skipped res = sk + length raw_rows)%nat.
Proof.
  unfold _process_raw_rows. cbn [pdf_result rows skipped].
  destruct (process_loop_inv user_id categories bk (fun _ => True)
              raw_rows [] sk) as [_ Hlen]; [done|done|].
  cbn in Hlen. cbn zeta. lia.
Qed.

(** C1 (the code departs from the claim): the CSV with the one column
    [Сума] and the one row [nan] is parsed into one emitted row, nothing
    is skipped, and the amount of that row is NaN, which is not at least
    0.01. *)
Theorem nan_amount_is_emitted user_id categories :
  exists row,
    parse_csv nan_reader user_id categories
    = Ok {| rows := [row]; skipped := 0; bank := GENERIC |}
    /\ row_amount row = S754_nan
    /\ fge (row_amount row) f_0_01 = false.
Proof.
  assert (Hbank : detect_bank [u "Сума"] = GENERIC)
    by (vm_compute; reflexivity).
  assert (Hrow : parser_map GENERIC [(Field (u "Сума"), Some (u "nan"))]
                 = Ok (Some {| date := now; amount := S754_nan;
                               description := []; mcc := [] |}))
    by (vm_compute; reflexivity).
  assert (Hcat : categorize [] [] = (u "Інше", expense, false))
    by (vm_compute; reflexivity).
  assert (Hsign : correct_sign S754_nan [] (u "Інше") expense
                  = (u "Переказ (інше)", transfer))
    by (vm_compute; reflexivity).
  eexists. split; [|split].
  - unfold parse_csv, nan_reader. cbn [fieldnames records].
    rewrite Hbank. cbn [csv_loop]. rewrite Hrow.
    cbn [mbind result_bind]. unfold csv_emit.
    cbn [amount description mcc].
    change (flt (fabs S754_nan) f_0_01) with false. cbn iota.
    rewrite Hcat, Hsign. cbn [app fst snd]. reflexivity.
  - reflexivity.
  - reflexivity.
Qed.

(** The same amount passes [_process_raw_rows]. *)
Lemma nan_amount_passes_pdf user_id categories bk d :
  exists row,
    pdf_emit user_id categories bk
      {| date := d; amount := S754_nan; description := []; mcc := [] |}
    = Some row
    /\ fge (row_amount row) f_0_01 = false.
Proof.
  assert (Hcl : _classify_transaction S754_nan [] []
                = (u "Інше", expense, false)) by (vm_compute; reflexivity).
  eexists. split.
  - unfold pdf_emit. cbn [amount description mcc].
    change (flt (fabs S754_nan) f_0_01) with false. cbn iota.
    rewrite Hcl. reflexivity.
  - reflexivity.
Qed.

(** ** The PDF router *)

(** C2: when the lower-cased text of the first page contains none of the
    bank names, [parse_pdf] raises [ValueError] with its message and
    yields no result: no rows, no skip count, no totals. *)
Theorem parse_pdf_unknown_bank first rest user_id categories :
  Forall (fun name =>
            str_in name (lower (default [] (extract_text first))) = false)
         BANK_NAMES ->
  parse_pdf (first :: rest) user_id categories
  = Raise (ValueError UNKNOWN_FORMAT)
  /\ forall res, parse_pdf (first :: rest) user_id categories <> Ok res.
Proof.
  intros H. unfold BANK_NAMES in H. rewrite !Forall_cons in H.
  destruct H as (H1 & H2 & H3 & H4 & H5 & _).
  assert (E : parse_pdf (first :: rest) user_id categories
              = Raise (ValueError UNKNOWN_FORMAT)).
  { unfold parse_pdf. cbv zeta. rewrite H1, H2, H3, H4, H5. reflexivity. }
  split; [exact E|]. intros res. rewrite E. discriminate.
Qed.

(** ** The categorizer *)

Lemma find_first_match {A} (f : A -> bool) before x after :
  Forall (fun y => f y = false) before ->
  f x = true ->
  List.find f (before ++ x :: after) = Some x.
Proof.
  induction 1 as [|y before Hy _ IH]; intros Hx; cbn.
  - by rewrite Hx.
  - rewrite Hy. by apply IH.
Qed.

(** C3, as the code has it: when no MCC decides and a keyword rule
    matches with no rule before it matching, [categorize] returns the
    category and the type of that rule, and the ignore flag says whether
    the lower-cased description contains a marker; the marker changes
    neither category nor type.  The description ["повернення боргу 200"]
    itself matches no keyword rule and gets the fallback with the flag
    off. *)
Theorem categorize_keyword_and_marker (description mcc : pystr) before kws cat
    ty after :
  mcc = [] \/ MCC_TO_CATEGORY !! strip mcc = None ->
  KEYWORD_RULES = before ++ (kws, cat, ty) :: after ->
  Forall (fun rule => any_in rule.1.1 (lower description) = false) before ->
  any_in kws (lower description) = true ->
  categorize description mcc
  = (cat, ty, any_in IGNORE_MARKERS (lower description))
  /\ categorize (u "повернення боргу 200") (u "") = (u "Інше", expense, false).
Proof.
  intros Hmcc Hrules Hbefore Hkws. split; [|vm_compute; reflexivity].
  unfold categorize. rewrite Hrules.
  rewrite (find_first_match (fun rule => any_in rule.1.1 (lower description))
             before (kws, cat, ty) after Hbefore Hkws).
  destruct Hmcc as [-> | ->].
  - by case_bool_decide.
  - by case_bool_decide.
Qed.

(** ** The person-name rule *)

(** C5: a description that [_is_person_name] accepts is classified as a
    transfer to a person, whatever the amount and the MCC. *)
Theorem person_name_is_transfer raw_amount description mcc :
  _is_person_name description = true ->
  _classify_transaction raw_amount description mcc
  = (PERSON_TRANSFER, transfer, false).
Proof.
  intros H. unfold _classify_transaction. rewrite H. reflexivity.
Qed.

(** ** Amounts *)

(** C6: the four examples of [_parse_amount]; each value is exact. *)
Theorem parse_amount_examples :
  (exists x, _parse_amount (u "1 500,00") = Some x
             /\ float_is_ratio x 1500 1 = true)
  /\ (exists x, _parse_amount (u "-1500.50") = Some x
                /\ float_is_ratio x (-150050) 100 = true)
  /\ (exists x, _parse_amount (u "1,234,567") = Some x
                /\ float_is_ratio x 1234567 1 = true)
  /\ _parse_amount (u "abc") = None.
Proof.
  repeat split; try (eexists; split; vm_compute; reflexivity).
Qed.

(** ** The bank detector *)

(** C7: the example headers are Monobank's, and [detect_bank] is the
    first matching rule of the ordered list [SIGNATURE_RULES], with
    [GENERIC] when none matches. *)
Theorem detect_bank_first_match :
  detect_bank [u "Дата і час операції"; u "MCC"; u "Сума"] = MONO
  /\ forall headers,
       detect_bank headers = first_matching_rule (normalise_headers headers).
Proof.
  split; [vm_compute; reflexivity|].
  intros headers. unfold detect_bank, first_matching_rule, SIGNATURE_RULES.
  fold (normalise_headers headers).
  generalize (normalise_headers headers) as h. intros h.
  cbn zeta. cbn [List.find fst snd].
  repeat match goal with
         | |- (if ?c then _ else _) = _ =>
           destruct c; cbn [fst snd]; [reflexivity|]
         end.
  reflexivity.
Qed.

(** ** The sign correction of [parse_csv] *)

Lemma positive_not_negative (x : pyfloat) :
  fgt x f_zero = true -> flt x f_zero = false.
Proof. by destruct x as [| [] | | [] ? ?]. Qed.

(** C8: when the categorizer's type agrees with the sign of the amount,
    the emitted type and category name are the categorizer's. *)
Theorem sign_correction_is_noop user_id categories bk (parsed : RawRow)
    row cat ty ig :
  categorize (description parsed) (mcc parsed) = (cat, ty, ig) ->
  csv_emit user_id categories bk parsed = Some row ->
  (flt (amount parsed) f_zero = true /\ ty <> income)
  \/ (fgt (amount parsed) f_zero = true /\ ty <> expense) ->
  row_type row = ty /\ raw_category (row_metadata row) = cat.
Proof.
  intros Hcat Hemit Hsign.
  apply csv_emit_Some in Hemit as (_ & _ & _ & Hty & Hname & _).
  rewrite Hcat in Hty, Hname. cbn [fst snd] in Hty, Hname.
  rewrite Hty, Hname. unfold correct_sign.
  destruct Hsign as [[Hneg Hne] | [Hpos Hne]].
  - rewrite Hneg. cbn [negb andb].
    rewrite bool_decide_eq_false_2 by done. done.
  - rewrite (positive_not_negative _ Hpos). cbn [negb andb].
    rewrite bool_decide_eq_false_2 by done. done.
Qed.

(** C9: a debit that the categorizer called income is emitted as an
    expense under the categorizer's category name, and that name is what
    [find_category_id] is asked for, with the type [expense]. *)
Theorem debit_income_keeps_category user_id categories bk (parsed : RawRow)
    cat ig :
  categorize (description parsed) (mcc parsed) = (cat, income, ig) ->
  flt (amount parsed) f_zero = true ->
  flt (fabs (amount parsed)) f_0_01 = false ->
  exists row,
    csv_emit user_id categories bk parsed = Some row
    /\ row_type row = expense
    /\ raw_category (row_metadata row) = cat
    /\ row_category_id row = find_category_id categories cat expense.
Proof.
  intros Hcat Hneg Hbig.
  destruct (csv_emit user_id categories bk parsed) as [row|] eqn:Hemit.
  - exists row. split; [done|].
    apply csv_emit_Some in Hemit as (_ & _ & _ & Hty & Hname & Hid & _).
    rewrite Hcat in Hty, Hname, Hid. cbn [fst snd] in Hty, Hname, Hid.
    unfold correct_sign in Hty, Hname, Hid. rewrite Hneg in Hty, Hname, Hid.
    cbn in Hty, Hname, Hid. done.
  - apply csv_emit_None in Hemit. congruence.
Qed.

(** ** The source tag *)

Lemma process_raw_rows_source raw_rows sk bk totals user_id categories :
  Forall (fun row => row_source row = u "csv")
         (rows (pdf_result (_process_raw_rows raw_rows sk bk totals user_id
                                              categories))).
Proof.
  unfold _process_raw_rows. cbn [pdf_result rows].
  apply (process_loop_inv user_id categories bk
           (fun row => row_source row = u "csv") raw_rows [] sk); [done|].
  intros parsed row _ Hemit. by apply pdf_emit_Some in Hemit as (_ & _ & ? & _).
Qed.

(** C4, as the code has it: every row of either pipeline carries the one
    tag ["csv"]; the PDF pipeline has no tag of its own. *)
Theorem emitted_source_is_csv (reader : DictReader) (pdf : pdf_document)
    user_id categories :
  (forall res,
     parse_csv reader user_id categories = Ok res ->
     Forall (fun row => row_source row = u "csv") (rows res))
  /\ (forall res,
        parse_pdf pdf user_id categories = Ok res ->
        Forall (fun row => row_source row = u "csv") (rows (pdf_result res))).
Proof.
  split; intros res.
  - unfold parse_csv. destruct (fieldnames reader) as [|h hs].
    + intros [= <-]. constructor.
    + destruct (csv_loop _ _ _ _ _ _) as [[out sk]|e] eqn:Hrun;
        cbn [mbind result_bind]; [|discriminate].
      intros [= <-]. cbn [rows fst].
      apply (csv_loop_inv _ _ _ (fun row => row_source row = u "csv"))
        in Hrun as [Hout _]; [done|done|].
      intros raw_row parsed row _ _ Hemit.
      by apply csv_emit_Some in Hemit as (_ & _ & ? & _).
  - unfold parse_pdf. destruct pdf as [|first rest]; [discriminate|].
    cbv zeta.
    destruct (_ || _ || _).
    + intros [= <-]. unfold _parse_monobank_pdf.
      destruct (collect_pages _ _ _ _ _) as [[|r raw_rows] sk].
      * constructor.
      * apply process_raw_rows_source.
    + destruct (_ || _); [|discriminate].
      intros [= <-]. unfold _parse_abank_pdf.
      destruct (collect_pages _ _ _ _ _) as [[|r raw_rows] sk].
      * constructor.
      * apply process_raw_rows_source.
Qed.

(** ** Monobank rows that carry an MCC *)

Lemma extract_rows_elem body todo (raw : RawRow) :
  raw ∈ (extract_rows body todo).1 ->
  exists row, row ∈ todo /\ body row = Some raw.
Proof.
  induction todo as [|row rest IH]; cbn [extract_rows].
  - intros H. by apply elem_of_nil in H.
  - destruct (extract_rows body rest) as [out sk]. cbn [fst] in IH.
    destruct (body row) as [r|] eqn:Hrow; cbn [fst]; intros Hin.
    + apply elem_of_cons in Hin as [-> | Hin].
      * exists row. split; [left | done].
      * destruct (IH Hin) as (row' & Hin' & Hbody).
        exists row'. split; [by right | done].
    + destruct (IH Hin) as (row' & Hin' & Hbody).
      exists row'. split; [by right | done].
Qed.

Lemma monobank_row_suffix row (raw : RawRow) :
  monobank_row row = Some raw ->
  mcc raw <> [] ->
  exists d, description raw = d ++ u " (MCC " ++ mcc raw ++ u ")".
Proof.
  unfold monobank_row.
  destruct (bool_decide (length row < 4)%nat); [discriminate|].
  destruct (_ || _); [discriminate|].
  destruct (_parse_abank_amount _); [|discriminate].
  intros [= <-]. cbn [mcc description]. intros Hmcc.
  rewrite (bool_decide_eq_false_2 _ Hmcc). eauto.
Qed.

Lemma re_search_class p (s : pystr) :
  existsb p s = true -> is_Some_b (re_search (Cls p) s) = true.
Proof.
  induction s as [|c s IH]; cbn [existsb]; [discriminate|].
  cbn [re_search]. unfold re_match. cbn [bt].
  destruct (p c); [reflexivity|]. cbn [orb]. exact IH.
Qed.

(** A description with a digit or one of the forbidden signs is no
    person name. *)
Lemma forbidden_sign_not_person (text : pystr) :
  existsb name_forbidden text = true -> _is_person_name text = false.
Proof.
  intros H. unfold _is_person_name.
  destruct (_ || _); [reflexivity|].
  by rewrite (re_search_class _ _ H).
Qed.

Lemma mcc_suffix_not_person (d code : pystr) :
  _is_person_name (d ++ u " (MCC " ++ code ++ u ")") = false.
Proof.
  apply forbidden_sign_not_person.
  rewrite !existsb_app.
  replace (existsb name_forbidden (u " (MCC ")) with true
    by (vm_compute; reflexivity).
  by rewrite orb_true_r.
Qed.

(** No table of the categorizer holds the label of the person rule. *)
Lemma categorize_never_person (description mcc : pystr) :
  (categorize description mcc).1.1 <> PERSON_TRANSFER.
Proof.
  assert (Hm : map_Forall (fun _ v => v.1 <> PERSON_TRANSFER) MCC_TO_CATEGORY).
  { apply (bool_decide_unpack _). vm_compute. exact I. }
  assert (Hk : Forall (fun rule => rule.1.2 <> PERSON_TRANSFER) KEYWORD_RULES).
  { apply (bool_decide_unpack _). vm_compute. exact I. }
  assert (Hf : u "Інше" <> PERSON_TRANSFER).
  { intros E. vm_compute in E. discriminate. }
  unfold categorize.
  destruct (if bool_decide (mcc = []) then None
            else MCC_TO_CATEGORY !! strip mcc) as [[cat ty]|] eqn:Hlook.
  - cbn [fst]. destruct (bool_decide (mcc = [])); [discriminate|].
    exact (Hm _ _ Hlook).
  - destruct (List.find _ KEYWORD_RULES) as [[[kws cat] ty]|] eqn:Hfind.
    + cbn [fst]. apply List.find_some in Hfind as [Hin _].
      rewrite Forall_forall in Hk. apply list_elem_of_In in Hin.
      exact (Hk _ Hin).
    + exact Hf.
Qed.

(** Without a person name the classifier never answers with the label of
    the person rule. *)
Lemma classify_person_only_by_name raw_amount (description mcc : pystr) :
  _is_person_name description = false ->
  (_classify_transaction raw_amount description mcc).1.1 <> PERSON_TRANSFER.
Proof.
  intros Hname.
  assert (H1 : u "Інший дохід" <> PERSON_TRANSFER)
    by (intros E; vm_compute in E; discriminate).
  assert (H2 : u "Переказ (інше)" <> PERSON_TRANSFER)
    by (intros E; vm_compute in E; discriminate).
  assert (H3 : u "Інвестиції/Скарбничка" <> PERSON_TRANSFER)
    by (intros E; vm_compute in E; discriminate).
  assert (H4 : u "Зарплата" <> PERSON_TRANSFER)
    by (intros E; vm_compute in E; discriminate).
  assert (H5 : u "Фріланс" <> PERSON_TRANSFER)
    by (intros E; vm_compute in E; discriminate).
  assert (H6 : u "Інше" <> PERSON_TRANSFER)
    by (intros E; vm_compute in E; discriminate).
  pose proof (categorize_never_person description mcc) as Hcat.
  unfold _classify_transaction. cbv zeta. rewrite Hname.
  destruct (categorize description mcc) as [[cat ty] ig]. cbn [fst] in Hcat.
  repeat match goal with
         | |- context [if ?c then _ else _] => destruct c
         end; cbn [fst]; assumption.
Qed.

(** C10: a row that [_extract_monobank_rows] returns with a non-empty MCC
    has a description that ends in [" (MCC <code>)"]; [_is_person_name]
    rejects it, and [_classify_transaction] does not classify it as a
    transfer to a person. *)
Theorem monobank_mcc_row_never_person (tbl : table) (raw : RawRow) :
  raw ∈ (_extract_monobank_rows tbl).1 ->
  mcc raw <> [] ->
  (exists d, description raw = d ++ u " (MCC " ++ mcc raw ++ u ")")
  /\ _is_person_name (description raw) = false
  /\ (_classify_transaction (amount raw) (description raw) (mcc raw)).1.1
     <> PERSON_TRANSFER.
Proof.
  intros Hin Hmcc. unfold _extract_monobank_rows in Hin.
  apply extract_rows_elem in Hin as (row & _ & Hrow).
  destruct (monobank_row_suffix row raw Hrow Hmcc) as [d Hd].
  assert (Hname : _is_person_name (description raw) = false)
    by (rewrite Hd; apply mcc_suffix_not_person).
  split; [by exists d|]. split; [exact Hname|].
  by apply classify_person_only_by_name.
Qed.

End Properties.

(** * The theorems at concrete inputs *)

Lemma parse_pdf_unknown_bank_witness :
  @parse_pdf text_calendar privat_pdf (u "u1") small_catalogue
  = Raise (ValueError UNKNOWN_FORMAT)
  /\ forall res,
       @parse_pdf text_calendar privat_pdf (u "u1") small_catalogue <> Ok res.
Proof.
  apply (@parse_pdf_unknown_bank text_calendar).
  apply (bool_decide_unpack _). vm_compute. exact I.
Defined.

(** C3: on ["повернення боргу 200"] the flag is off, and no keyword rule
    matches the description. *)
Lemma debt_repayment_alone_not_ignored :
  (categorize (u "повернення боргу 200") (u "")).2 = false
  /\ Forall (fun rule =>
               any_in rule.1.1 (lower (u "повернення боргу 200")) = false)
            KEYWORD_RULES.
Proof.
  split; [vm_compute; reflexivity|].
  apply (bool_decide_unpack _). vm_compute. exact I.
Defined.

Lemma categorize_keyword_and_marker_witness :
  categorize (u "зарплата, повернення боргу 200") (u "")
  = (u "Зарплата", income,
     any_in IGNORE_MARKERS (lower (u "зарплата, повернення боргу 200")))
  /\ categorize (u "повернення боргу 200") (u "") = (u "Інше", expense, false).
Proof.
  apply (categorize_keyword_and_marker
           (u "зарплата, повернення боргу 200") (u "")
           (take 9 KEYWORD_RULES)
           [u "зарплата"; u "зп"; u "salary"; u "аванс"; u "нарахування зп";
            u "виплата зп"; u "заробітна плата"; u "заробітня плата"]
           (u "Зарплата") income (drop 10 KEYWORD_RULES)).
  - left. vm_compute. reflexivity.
  - vm_compute. reflexivity.
  - apply (bool_decide_unpack _). vm_compute. exact I.
  - vm_compute. reflexivity.
Defined.

Lemma person_name_is_transfer_witness :
  _classify_transaction (float_of_Z (-300)) (u "Іван Петренко") (u "5411")
  = (PERSON_TRANSFER, transfer, false).
Proof.
  apply person_name_is_transfer. vm_compute. reflexivity.
Defined.

(** C4: a row of the CSV pipeline and a row of the PDF pipeline carry the
    same tag. *)
Lemma pdf_row_tagged_like_csv :
  exists res_csv res_pdf row_csv row_pdf,
    @parse_csv text_calendar
      (mono_reader (u "СУПЕРМАРКЕТ ABC") (u "5411") (u "-150.00"))
      (u "u1") small_catalogue = Ok res_csv
    /\ rows res_csv = [row_csv]
    /\ @parse_pdf text_calendar
         (mono_pdf (u "СУПЕРМАРКЕТ ABC") (u "5411") (u "-150.00"))
         (u "u1") small_catalogue = Ok res_pdf
    /\ rows (pdf_result res_pdf) = [row_pdf]
    /\ row_source row_csv = row_source row_pdf.
Proof.
  do 4 eexists.
  split; [vm_compute; reflexivity|].
  split; [vm_compute; reflexivity|].
  split; [vm_compute; reflexivity|].
  split; vm_compute; reflexivity.
Defined.

Lemma emitted_source_is_csv_witness :
  (forall res,
     @parse_csv text_calendar
       (mono_reader (u "СУПЕРМАРКЕТ ABC") (u "5411") (u "-150.00"))
       (u "u1") small_catalogue = Ok res ->
     Forall (fun row => row_source row = u "csv") (rows res))
  /\ (forall res,
        @parse_pdf text_calendar
          (mono_pdf (u "СУПЕРМАРКЕТ ABC") (u "5411") (u "-150.00"))
          (u "u1") small_catalogue = Ok res ->
        Forall (fun row => row_source row = u "csv") (rows (pdf_result res))).
Proof.
  apply (@emitted_source_is_csv text_calendar).
Defined.

Lemma sign_correction_is_noop_witness :
  exists row,
    @csv_emit text_calendar (u "u1") small_catalogue MONO supermarket_row
    = Some row
    /\ row_type row = expense
    /\ raw_category (row_metadata row) = u "Супермаркети".
Proof.
  eexists. split; [vm_compute; reflexivity|].
  apply (@sign_correction_is_noop text_calendar (u "u1") small_catalogue MONO
           supermarket_row _ (u "Супермаркети") expense false).
  - vm_compute. reflexivity.
  - vm_compute. reflexivity.
  - left. split; [vm_compute; reflexivity | discriminate].
Defined.

Lemma debit_income_keeps_category_witness :
  exists row,
    @csv_emit text_calendar (u "u1") small_catalogue MONO salary_debit
    = Some row
    /\ row_type row = expense
    /\ raw_category (row_metadata row) = u "Зарплата"
    /\ row_category_id row
       = find_category_id small_catalogue (u "Зарплата") expense.
Proof.
  apply (@debit_income_keeps_category text_calendar (u "u1") small_catalogue
           MONO salary_debit (u "Зарплата") false).
  - vm_compute. reflexivity.
  - vm_compute. reflexivity.
  - vm_compute. reflexivity.
Defined.

Lemma monobank_mcc_row_never_person_witness :
  (exists d,
     description person_with_mcc
     = d ++ u " (MCC " ++ mcc person_with_mcc ++ u ")")
  /\ _is_person_name (description person_with_mcc) = false
  /\ (_classify_transaction (amount person_with_mcc)
        (description person_with_mcc) (mcc person_with_mcc)).1.1
     <> PERSON_TRANSFER.
Proof.
  apply (@monobank_mcc_row_never_person text_calendar
           (mono_table (u "Іван Петренко") (u "4829") (u "-300.00"))).
  - replace ((@_extract_monobank_rows text_calendar
                (mono_table (u "Іван Петренко") (u "4829") (u "-300.00"))).1)
      with [person_with_mcc] by (vm_compute; reflexivity).
    apply list_elem_of_singleton. reflexivity.
  - intros E. vm_compute in E. discriminate.
Defined.

(** * Further properties of the two parsers *)

Section Further.

Context {calendar : Calendar}.

(** ** [parse_csv]: what every emitted row satisfies *)




(** X2: a row that [parse_csv] emits as income or as a transfer carries
    a category that the rule tables pair with that type; only an expense
    can carry a category of another type. *)
Theorem csv_income_and_transfer_vocabulary user_id categories bk
    (parsed : RawRow) row :
  csv_emit user_id categories bk parsed = Some row ->
  row_type row <> expense ->
  (exists rule, rule ∈ KEYWORD_RULES
                /\ rule.1.2 = raw_category (row_metadata row)
                /\ rule.2 = row_type row)
  \/ (exists code, MCC_TO_CATEGORY !! code
                   = Some (raw_category (row_metadata row), row_type row)).
Proof.
  intros Hemit Hne.
  apply csv_emit_Some in Hemit as (_ & _ & _ & Hty & Hname & _).
  rewrite Hty in Hne. rewrite Hty, Hname. clear Hty Hname.
  assert (Hother : exists rule, rule ∈ KEYWORD_RULES
                     /\ rule.1.2 = u "Інший дохід" /\ rule.2 = income).
  { exists (default ([], [], expense) (KEYWORD_RULES !! 11%nat)).
    split; [|split]; [|vm_compute; reflexivity..].
    apply (list_elem_of_lookup_2 _ 11%nat). vm_compute. reflexivity. }
  assert (Htrans : exists rule, rule ∈ KEYWORD_RULES
                     /\ rule.1.2 = u "Переказ (інше)" /\ rule.2 = transfer).
  { exists (default ([], [], expense) (KEYWORD_RULES !! 13%nat)).
    split; [|split]; [|vm_compute; reflexivity..].
    apply (list_elem_of_lookup_2 _ 13%nat). vm_compute. reflexivity. }
  assert (Hcat : forall cat ty ig,
            categorize (description parsed) (mcc parsed) = (cat, ty, ig) ->
            ty <> expense ->
            (exists rule, rule ∈ KEYWORD_RULES /\ rule.1.2 = cat /\ rule.2 = ty)
            \/ (exists code, MCC_TO_CATEGORY !! code = Some (cat, ty))).
  { unfold categorize. intros cat ty ig.
    destruct (if bool_decide (mcc parsed = []) then None
              else MCC_TO_CATEGORY !! strip (mcc parsed))
      as [[c t]|] eqn:Hlook.
    - intros [= <- <- <-] _. right. exists (strip (mcc parsed)).
      by destruct (bool_decide (mcc parsed = [])).
    - destruct (List.find _ KEYWORD_RULES) as [[[kws c] t]|] eqn:Hfind.
      + intros [= <- <- <-] _. left. exists (kws, c, t).
        apply List.find_some in Hfind as [Hin _].
        apply list_elem_of_In in Hin. done.
      + intros [= <- <- <-] Hexp. done. }
  destruct (categorize (description parsed) (mcc parsed)) as [[cat ty] ig]
    eqn:Hc. cbn [fst snd] in *.
  specialize (Hcat cat ty ig eq_refl).
  unfold correct_sign in *. cbv zeta in *.
  destruct (flt (amount parsed) f_zero); cbn [negb andb] in *.
  - case_bool_decide; cbn [fst snd] in *; [done|]. by apply Hcat.
  - case_bool_decide; cbn [fst snd] in *.
    + destruct (any_in _ _); cbn [fst snd] in *; by left.
    + by apply Hcat.
Qed.

(** ** [categorize] and [_classify_transaction] *)

(** X3: a known merchant code decides alone: the description is not
    looked at, the row is never flagged to be ignored, and the type is
    never income. *)
Theorem known_mcc_decides (description mcc : pystr) cat ty :
  mcc <> [] ->
  MCC_TO_CATEGORY !! strip mcc = Some (cat, ty) ->
  categorize description mcc = (cat, ty, false) /\ ty <> income.
Proof.
  intros Hne Hlook. split.
  - unfold categorize. rewrite (bool_decide_eq_false_2 _ Hne), Hlook. done.
  - assert (Hm : map_Forall (fun _ v => v.2 <> income) MCC_TO_CATEGORY).
    { apply (bool_decide_unpack _). vm_compute. exact I. }
    exact (Hm _ _ Hlook).
Qed.

(** X4: the PDF classifier never calls a credit an expense nor any other
    amount an income. *)
Theorem classify_type_follows_sign raw_amount (description mcc : pystr) :
  (_classify_transaction raw_amount description mcc).1.2
  <> (if fgt raw_amount f_zero then expense else income).
Proof.
  unfold _classify_transaction. cbv zeta.
  destruct (categorize description mcc) as [[cat ty] ig].
  destruct (fgt raw_amount f_zero);
    repeat match goal with
           | |- context [if ?c then _ else _] => destruct c eqn:?
           end; cbn [fst snd]; try discriminate.
  all: repeat match goal with
              | H : bool_decide _ = false |- _ =>
                apply bool_decide_eq_false in H
              end; assumption.
Qed.

End Further.
Section Further2.

Context {calendar : Calendar}.

(** ** [find_category_id] *)

Lemma best_token_match_from (q_tokens : gset pystr) (pool : list category) :
  forall (l : list category) (best : option pystr * nat),
  (forall c, c ∈ l -> c ∈ pool) ->
  (forall i, best.1 = Some i -> exists c, c ∈ pool /\ cat_id c = i) ->
  forall i,
    (fold_left
       (fun best c =>
          if bool_decide
               (best.2 < size (q_tokens ∩ tokens (lower (cat_name c))))%nat
          then (Some (cat_id c),
                size (q_tokens ∩ tokens (lower (cat_name c))))
          else best)
       l best).1 = Some i ->
    exists c, c ∈ pool /\ cat_id c = i.
Proof.
  induction l as [|c l IH]; intros best Hsub Hbest i; cbn [fold_left].
  - apply Hbest.
  - apply IH.
    + intros c' Hc'. apply Hsub. by right.
    + case_bool_decide; [|done].
      cbn [fst]. intros j [= <-]. exists c. split; [|done].
      apply Hsub. left.
Qed.

(** X5: [find_category_id] answers with the id of an entry of the
    catalogue whose type is the requested one, or with nothing; it never
    returns an id of another type. *)
Theorem find_category_id_same_type categories (name : pystr) tx_type i :
  find_category_id categories name tx_type = Some i ->
  exists c, c ∈ categories /\ cat_type c = tx_str tx_type /\ cat_id c = i.
Proof.
  unfold find_category_id. cbv zeta.
  set (same_type := filter (fun c => cat_type c = tx_str tx_type) categories).
  assert (Hpool : forall c, c ∈ same_type ->
                    c ∈ categories /\ cat_type c = tx_str tx_type).
  { intros c Hc. apply list_elem_of_filter in Hc. tauto. }
  destruct (List.find _ same_type) as [c|] eqn:H1.
  { intros Hi. apply List.find_some in H1 as [Hin _].
    apply list_elem_of_In, Hpool in Hin. exists c.
    assert (cat_id c = i) by congruence. tauto. }
  clear H1.
  match goal with
  | |- context [List.find ?f same_type] =>
    destruct (List.find f same_type) as [c|] eqn:H2
  end.
  { intros Hi. apply List.find_some in H2 as [Hin _].
    apply list_elem_of_In, Hpool in Hin. exists c.
    assert (cat_id c = i) by congruence. tauto. }
  destruct (fold_left _ same_type _) as [best_id best_score] eqn:Hfold.
  case_bool_decide; [|discriminate].
  intros ->.
  destruct (best_token_match_from (tokens (strip (lower name))) same_type
              same_type (None, 0%nat)) with (i := i) as (c & Hc & Hid).
  - done.
  - discriminate.
  - by rewrite Hfold.
  - apply Hpool in Hc. exists c. tauto.
Qed.

(** X6: an entry of the requested type whose name equals the wanted name
    up to letter case and surrounding blanks is returned, the first such
    entry of the catalogue, whatever looser matches stand before it. *)
Theorem find_category_id_exact_first before c after (name : pystr) tx_type :
  cat_type c = tx_str tx_type ->
  strip (lower (cat_name c)) = strip (lower name) ->
  Forall (fun b => ~ (cat_type b = tx_str tx_type
                      /\ strip (lower (cat_name b)) = strip (lower name)))
         before ->
  find_category_id (before ++ c :: after) name tx_type = Some (cat_id c).
Proof.
  intros Hty Hname Hbefore. unfold find_category_id. cbv zeta.
  rewrite filter_app, filter_cons_True by done.
  rewrite (find_first_match _ _ c).
  - reflexivity.
  - apply Forall_forall. intros b Hb.
    apply list_elem_of_filter in Hb as [Hbt Hb].
    rewrite Forall_forall in Hbefore. specialize (Hbefore b Hb).
    unfold str_eqb. apply bool_decide_eq_false. tauto.
  - unfold str_eqb. by apply bool_decide_eq_true.
Qed.

(** ** Accounting: no row is lost *)

(** X7: [parse_csv] accounts for every record of the reader: it is
    emitted or it is counted as skipped. *)
Theorem parse_csv_accounts_for_every_record reader user_id categories res :
  fieldnames reader <> [] ->
  parse_csv reader user_id categories = Ok res ->
  (length (rows res) + skipped res = length (records reader))%nat
  /\ bank res = detect_bank (fieldnames reader).
Proof.
  intros Hf Hrun. split; [by eapply parse_csv_counts|].
  unfold parse_csv in Hrun. destruct (fieldnames reader) as [|h hs]; [done|].
  destruct (csv_loop _ _ _ _ _ _) as [[out sk]|e];
    cbn [mbind result_bind] in Hrun; [|discriminate].
  by injection Hrun as <-.
Qed.

Lemma extract_rows_counts body (todo : list (list cell)) :
  (length (extract_rows body todo).1 + (extract_rows body todo).2
   = length todo)%nat.
Proof.
  induction todo as [|row rest IH]; cbn [extract_rows]; [done|].
  destruct (extract_rows body rest) as [out sk]. cbn [fst snd] in IH.
  destruct (body row); cbn [fst snd length]; lia.
Qed.


(** X9: the text stored with a row is the first 255 characters of the
    extracted description, and nothing at all when the description is
    empty; this holds of both pipelines. *)
Theorem stored_description_is_truncated user_id categories bk
    (parsed : RawRow) row :
  csv_emit user_id categories bk parsed = Some row
  \/ pdf_emit user_id categories bk parsed = Some row ->
  match row_description row with
  | None => description parsed = []
  | Some d => d = take 255 (description parsed)
              /\ (1 <= length d <= 255)%nat
  end.
Proof.
  assert (Htr : forall d : pystr,
            match truncate_description d with
            | None => d = []
            | Some t => t = take 255 d /\ (1 <= length t <= 255)%nat
            end).
  { intros d. unfold truncate_description.
    destruct (take 255 d) as [|x t] eqn:Ht.
    - destruct d; [done | discriminate].
    - split; [done|]. rewrite <- Ht, length_take.
      destruct d; [discriminate|]. cbn [length]. lia. }
  intros [H | H].
  - unfold csv_emit in H. destruct (flt _ _); [discriminate|].
    destruct (categorize _ _) as [[? ?] ?]. destruct (correct_sign _ _ _ _).
    injection H as <-. cbn [row_description]. apply Htr.
  - unfold pdf_emit in H. destruct (flt _ _); [discriminate|].
    destruct (_classify_transaction _ _ _) as [[? ?] ?].
    injection H as <-. cbn [row_description]. apply Htr.
Qed.

End Further2.
Section Further3.

Context {calendar : Calendar}.

(** ** Exceptions of [parse_csv] *)

Lemma csv_loop_raises user_id categories bk raw_row :
  forall todo acc sk,
  raw_row ∈ todo ->
  (exists e, parser_map bk raw_row = Raise e) ->
  exists e, csv_loop user_id categories bk todo acc sk = Raise e.
Proof.
  induction todo as [|r rest IH]; intros acc sk Hin Hraise.
  - by apply elem_of_nil in Hin.
  - cbn [csv_loop].
    destruct (parser_map bk r) as [[parsed|]|e] eqn:Hr;
      cbn [mbind result_bind]; [| |by eexists].
    + apply elem_of_cons in Hin as [-> | Hin].
      { destruct Hraise as [e He]. congruence. }
      destruct (csv_emit _ _ _ _); by apply IH.
    + apply elem_of_cons in Hin as [-> | Hin].
      { destruct Hraise as [e He]. congruence. }
      by apply IH.
Qed.

Lemma generic_scan_restkey (row : csv_row) v :
  (RestKey, v) ∈ row ->
  forall st, exists e, generic_scan st row = Raise e.
Proof.
  induction row as [|item rest IH]; intros Hin st.
  - by apply elem_of_nil in Hin.
  - cbn [generic_scan].
    destruct (generic_step st item) as [st'|e] eqn:Hstep;
      cbn [mbind result_bind]; [|by eexists].
    apply elem_of_cons in Hin as [<- | Hin]; [discriminate|].
    by apply IH.
Qed.

(** X10: in an export that no bank signature matches, a record with
    more cells than headers is not skipped: it makes [parse_csv] raise,
    and no result is returned for the records before it either. *)
Theorem ragged_record_aborts_generic_import reader user_id categories
    raw_row v :
  fieldnames reader <> [] ->
  detect_bank (fieldnames reader) = GENERIC ->
  raw_row ∈ records reader ->
  (RestKey, v) ∈ raw_row ->
  exists e, parse_csv reader user_id categories = Raise e.
Proof.
  intros Hf Hbank Hin Hrest. unfold parse_csv.
  destruct (fieldnames reader) as [|h hs]; [done|]. rewrite Hbank.
  destruct (csv_loop_raises user_id categories GENERIC raw_row
              (records reader) [] 0%nat Hin) as [e He].
  - cbn [parser_map]. unfold parse_row_generic.
    destruct (generic_scan_restkey raw_row v Hrest
                {| g_date := None; g_amount := None;
                   g_desc := []; g_mcc := [] |}) as [e He].
    rewrite He. by eexists.
  - rewrite He. by eexists.
Qed.










End Further3.
Section Further4.

Context {calendar : Calendar}.

(** ** [_parse_amount]: separators *)

Lemma startswith_nil (s : pystr) : startswith s [] = true.
Proof. by destruct s. Qed.

(** Replacing a single character is a map over the string. *)
Lemma replace_char (s : pystr) c new :
  replace s [c] new
  = List.concat (map (fun x => if c =? x then new else [x]) s).
Proof.
  unfold replace. induction s as [|x s IH]; [done|].
  cbn [replace_from startswith map List.concat length Nat.sub].
  rewrite startswith_nil, andb_true_r. destruct (c =? x); by rewrite IH.
Qed.

Lemma replace_char_app (s t : pystr) c new :
  replace (s ++ t) [c] new = replace s [c] new ++ replace t [c] new.
Proof. by rewrite !replace_char, map_app, List.concat_app. Qed.

Lemma remove_char (s : pystr) c :
  replace s [c] [] = List.filter (fun x => negb (c =? x)) s.
Proof.
  rewrite replace_char. induction s as [|x s IH]; [done|].
  cbn [map List.concat List.filter]. destruct (c =? x); cbn; by rewrite IH.
Qed.

Lemma replace_absent (s : pystr) c new :
  Forall (fun x => x <> c) s -> replace s [c] new = s.
Proof.
  rewrite replace_char. induction 1 as [|x s Hx _ IH]; [done|].
  cbn [map List.concat]. rewrite IH.
  destruct (N.eqb_spec c x); [congruence | done].
Qed.

Lemma count_char (s : pystr) c :
  count s [c] = length (List.filter (N.eqb c) s).
Proof.
  unfold count. induction s as [|x s IH]; [done|].
  cbn [count_from startswith List.filter length Nat.sub].
  rewrite startswith_nil, andb_true_r.
  destruct (c =? x); cbn [length]; by rewrite IH.
Qed.

Lemma filter_absent (s : pystr) c :
  Forall (fun x => x <> c) s -> List.filter (N.eqb c) s = [].
Proof.
  induction 1 as [|x s Hx _ IH]; [done|]. cbn [List.filter].
  destruct (N.eqb_spec c x); [congruence | done].
Qed.

Lemma lstrip_by_noop p (s : pystr) :
  Forall (fun x => p x = false) s -> lstrip_by p s = s.
Proof. destruct 1 as [|x s Hx _]; [done|]. cbn. by rewrite Hx. Qed.

Lemma strip_noop (s : pystr) :
  Forall (fun x => isspace x = false) s -> strip s = s.
Proof.
  intros H. unfold strip, strip_by, rstrip_by.
  rewrite (lstrip_by_noop _ s H), lstrip_by_noop, rev_involutive; [done|].
  apply Forall_forall. intros x Hx. rewrite Forall_forall in H. apply H.
  apply list_elem_of_In. apply list_elem_of_In, in_rev in Hx. done.
Qed.

(** X12: a single comma is read as the decimal point: [a,b] and [a.b]
    give the same amount, whatever [a] and [b] are, as long as they hold
    no blank, comma or point themselves. *)
Theorem single_comma_is_decimal_point (a b : pystr) :
  Forall (fun x => isspace x = false /\ x <> 44 /\ x <> 46) a ->
  Forall (fun x => isspace x = false /\ x <> 44 /\ x <> 46) b ->
  _parse_amount (a ++ u "," ++ b) = _parse_amount (a ++ u "." ++ b)
  /\ _parse_amount (a ++ u "," ++ b) = float_of_str (a ++ u "." ++ b).
Proof.
  intros Ha Hb.
  replace (u ",") with [44] by (vm_compute; reflexivity).
  replace (u ".") with [46] by (vm_compute; reflexivity).
  assert (Hsp : forall c, (c = 44 \/ c = 46) ->
                  Forall (fun x => isspace x = false) (a ++ [c] ++ b)).
  { intros c Hc. rewrite !Forall_app, Forall_singleton.
    repeat split.
    - eapply Forall_impl; [exact Ha|]. cbv beta. tauto.
    - destruct Hc as [-> | ->]; vm_compute; reflexivity.
    - eapply Forall_impl; [exact Hb|]. cbv beta. tauto. }
  assert (Hno : forall c d, (c = 44 \/ c = 46) -> isspace d = true ->
                  Forall (fun x => x <> d) (a ++ [c] ++ b)).
  { intros c d Hc Hd. specialize (Hsp c Hc).
    eapply Forall_impl; [exact Hsp|]. cbv beta. intros x Hx ->. congruence. }
  assert (Hclean : forall c, (c = 44 \/ c = 46) ->
            replace (replace (strip (a ++ [c] ++ b)) [160] []) (u " ") []
            = a ++ [c] ++ b).
  { intros c Hc. rewrite (strip_noop _ (Hsp c Hc)).
    replace (u " ") with [32] by (vm_compute; reflexivity).
    rewrite (replace_absent _ 160), (replace_absent _ 32); [done| |].
    - apply Hno; [done | vm_compute; reflexivity].
    - apply Hno; [done | vm_compute; reflexivity]. }
  assert (Hcount : forall c d, d = 44 \/ d = 46 ->
            length (List.filter (N.eqb d) (a ++ [c] ++ b))
            = if d =? c then 1%nat else 0%nat).
  { intros c d Hd. rewrite !List.filter_app, !length_app.
    rewrite (filter_absent a d), (filter_absent b d).
    - cbn [List.filter length]. destruct (d =? c); cbn; lia.
    - eapply Forall_impl; [exact Hb|]. cbv beta.
      destruct Hd as [-> | ->]; tauto.
    - eapply Forall_impl; [exact Ha|]. cbv beta.
      destruct Hd as [-> | ->]; tauto. }
  assert (Hnonempty : forall c, a ++ [c] ++ b <> []).
  { intros c. destruct a; discriminate. }
  assert (Hcomma : _parse_amount (a ++ [44] ++ b)
                   = float_of_str (a ++ [46] ++ b)).
  { unfold _parse_amount. cbv zeta.
    rewrite (Hclean 44) by tauto.
    rewrite (strip_noop _ (Hsp 44 (or_introl eq_refl))).
    rewrite (bool_decide_eq_false_2 _ (Hnonempty 44)). cbn [orb].
    replace (u ",") with [44] by (vm_compute; reflexivity).
    replace (u ".") with [46] by (vm_compute; reflexivity).
    rewrite !count_char, !Hcount by tauto.
    change (44 =? 44) with true. change (46 =? 44) with false. cbv iota.
    rewrite !bool_decide_eq_true_2 by done. cbn [andb].
    f_equal. rewrite !replace_char_app.
    rewrite (replace_absent a 44), (replace_absent b 44).
    - reflexivity.
    - eapply Forall_impl; [exact Hb|]. cbv beta. tauto.
    - eapply Forall_impl; [exact Ha|]. cbv beta. tauto. }
  assert (Hpoint : _parse_amount (a ++ [46] ++ b)
                   = float_of_str (a ++ [46] ++ b)).
  { unfold _parse_amount. cbv zeta.
    rewrite (Hclean 46) by tauto.
    rewrite (strip_noop _ (Hsp 46 (or_intror eq_refl))).
    rewrite (bool_decide_eq_false_2 _ (Hnonempty 46)). cbn [orb].
    replace (u ",") with [44] by (vm_compute; reflexivity).
    replace (u ".") with [46] by (vm_compute; reflexivity).
    rewrite !count_char, !Hcount by tauto.
    change (44 =? 46) with false. change (46 =? 46) with true. cbv iota.
    rewrite (bool_decide_eq_false_2 (0 = 1)%nat) by lia.
    rewrite (bool_decide_eq_false_2 (1 <= 0)%nat) by lia. done. }
  split; congruence.
Qed.

Lemma lstrip_by_head p (s : pystr) :
  lstrip_by p s = [] \/ exists x r, lstrip_by p s = x :: r /\ p x = false.
Proof.
  induction s as [|x s IH]; [by left|]. cbn [lstrip_by].
  destruct (p x) eqn:Hx; [exact IH|]. right. by exists x, s.
Qed.

Lemma lstrip_by_snoc p (s : pystr) x :
  p x = false -> lstrip_by p (s ++ [x]) = lstrip_by p s ++ [x].
Proof.
  intros Hx. induction s as [|y s IH]; cbn [lstrip_by app].
  - by rewrite Hx.
  - by destruct (p y).
Qed.

Lemma strip_head (s : pystr) :
  strip s = [] \/ exists x r, strip s = x :: r /\ isspace x = false.
Proof.
  unfold strip, strip_by, rstrip_by.
  destruct (lstrip_by_head isspace s) as [-> | (x & r & -> & Hx)];
    [by left|].
  right. cbn [rev]. rewrite (lstrip_by_snoc _ _ _ Hx), rev_app_distr.
  cbn [rev app]. by eexists _, _.
Qed.

Lemma lstrip_without_space (s : pystr) :
  lstrip_by isspace (List.filter (fun x => negb (32 =? x)) s)
  = List.filter (fun x => negb (32 =? x)) (lstrip_by isspace s).
Proof.
  induction s as [|x s IH]; [done|]. cbn [List.filter lstrip_by].
  destruct (N.eqb_spec 32 x) as [<- | Hne]; cbn [negb].
  - exact IH.
  - cbn [lstrip_by]. destruct (isspace x); [exact IH|].
    cbn [List.filter]. destruct (N.eqb_spec 32 x); [done|]. done.
Qed.

Lemma strip_without_space (s : pystr) :
  strip (List.filter (fun x => negb (32 =? x)) s)
  = List.filter (fun x => negb (32 =? x)) (strip s).
Proof.
  unfold strip, strip_by, rstrip_by.
  rewrite lstrip_without_space, <- List.filter_rev, lstrip_without_space.
  by rewrite List.filter_rev.
Qed.

Lemma filter_sandwich {A} (f g : A -> bool) l :
  List.filter f (List.filter g (List.filter f l))
  = List.filter f (List.filter g l).
Proof.
  induction l as [|x l IH]; [done|]. cbn [List.filter].
  destruct (f x) eqn:Hf; cbn [List.filter].
  - destruct (g x); cbn [List.filter]; rewrite ?Hf, IH; done.
  - destruct (g x); cbn [List.filter]; rewrite ?Hf, IH; done.
Qed.

(** X13: spaces inside an amount never change what [_parse_amount]
    reads: the amount with every space removed parses to the same
    result. *)
Theorem spaces_do_not_change_amount (raw : pystr) :
  _parse_amount (replace raw (u " ") []) = _parse_amount raw.
Proof.
  replace (u " ") with [32] by (vm_compute; reflexivity).
  unfold _parse_amount. cbv zeta.
  replace (u " ") with [32] by (vm_compute; reflexivity).
  rewrite !remove_char, strip_without_space.
  destruct (strip_head raw) as [Hempty | (x & r & Hstrip & Hx)].
  - rewrite Hempty. cbn [List.filter].
    repeat match goal with
           | |- context [bool_decide ?P] => destruct (bool_decide_reflect P)
           end; cbn [orb]; try reflexivity; contradiction.
  - rewrite filter_sandwich.
    assert (Hraw : raw <> []) by (intros ->; discriminate).
    assert (Hx32 : negb (32 =? x) = true).
    { destruct (N.eqb_spec 32 x) as [<- | ?]; [|done]. discriminate. }
    assert (H1 : List.filter (fun x => negb (32 =? x)) raw <> []).
    { intros E. pose proof (strip_without_space raw) as Hs.
      rewrite E, Hstrip in Hs. cbn [List.filter] in Hs.
      rewrite Hx32 in Hs. discriminate. }
    assert (H2 : List.filter (fun x => negb (32 =? x)) (strip raw) <> []).
    { rewrite Hstrip. cbn [List.filter]. by rewrite Hx32. }
    assert (H3 : strip raw <> []) by (rewrite Hstrip; discriminate).
    repeat match goal with
           | |- context [bool_decide ?P] => destruct (bool_decide_reflect P)
           end; cbn [orb]; try reflexivity; contradiction.
Qed.

End Further4.
Section Further5.

Context {calendar : Calendar}.

(** ** [detect_bank] *)

Lemma any_has_true (hs : gset pystr) (sub h : pystr) :
  h ∈ hs -> str_in sub h = true -> any_has hs sub = true.
Proof.
  intros Hin Hsub. unfold any_has. apply existsb_exists. exists h.
  split; [|done]. apply list_elem_of_In. by apply elem_of_elements.
Qed.

(** X14: an export with a column whose name contains
    ["дата і час операції"], in any letter case, is taken for Monobank's
    whatever its other columns are. *)
Theorem monobank_date_column_decides (headers : list pystr) (h : pystr) :
  h ∈ headers ->
  str_in (u "дата і час операції") (strip (lower h)) = true ->
  detect_bank headers = MONO.
Proof.
  intros Hin Hsub. unfold detect_bank. cbv zeta.
  match goal with |- (if ?c then _ else _) = _ => destruct c end;
    [reflexivity|].
  rewrite (any_has_true _ _ (strip (lower h))); [reflexivity| |done].
  apply elem_of_list_to_set, list_elem_of_fmap. by exists h.
Qed.

(** X15: [detect_bank] looks at the set of headers: neither the order of
    the columns nor a repeated column changes the answer. *)
Theorem detect_bank_ignores_column_order (headers1 headers2 : list pystr) :
  (forall h, h ∈ headers1 <-> h ∈ headers2) ->
  detect_bank headers1 = detect_bank headers2.
Proof.
  intros Hsame.
  assert (E : list_to_set (map (fun h => strip (lower h)) headers1)
              =@{gset pystr}
              list_to_set (map (fun h => strip (lower h)) headers2)).
  { apply set_eq. intros x.
    rewrite !elem_of_list_to_set, !list_elem_of_fmap.
    split; intros (h & -> & Hh); exists h; split; try done; by apply Hsame. }
  unfold detect_bank. cbv zeta. by rewrite E.
Qed.

(** ** The extractors of the banks with two amount columns *)

Lemma positive_amount_Some (x : option pyfloat) :
  positive_amount x = true -> exists v, x = Some v /\ fgt v f_zero = true.
Proof.
  destruct x as [v|]; [|discriminate]. cbn [positive_amount].
  intros [_ H]%andb_true_iff. by exists v.
Qed.

Lemma negated_positive (v : pyfloat) :
  fgt v f_zero = true -> flt (fneg v) f_zero = true.
Proof. by destruct v as [| [] | | [] ? ?]. Qed.

Lemma two_column_sign (first second : option pyfloat) (negate_first : bool)
    (x : pyfloat) :
  (if positive_amount first
   then (if negate_first then fneg <$> first else first)
   else if positive_amount second
        then (if negate_first then second else fneg <$> second)
        else None) = Some x ->
  flt x f_zero = true \/ fgt x f_zero = true.
Proof.
  destruct (positive_amount first) eqn:H1.
  - apply positive_amount_Some in H1 as (v & -> & Hv).
    destruct negate_first; cbn; intros [= <-];
      [left; by apply negated_positive | by right].
  - destruct (positive_amount second) eqn:H2; [|discriminate].
    apply positive_amount_Some in H2 as (v & -> & Hv).
    destruct negate_first; cbn; intros [= <-];
      [by right | left; by apply negated_positive].
Qed.

Ltac open_get :=
  repeat match goal with
         | |- context [_get ?row ?keys] =>
           destruct (_get row keys) as [?|?];
           cbn [mbind result_bind]; [|discriminate]
         end.

(** X16: the extractors of Oschadbank, PUMB and A-Bank return an amount
    that is strictly negative or strictly positive, never zero and never
    NaN, and no merchant code. *)
Theorem two_column_amount_is_signed bk (row : csv_row) (r : RawRow) :
  bk = OSCHADBANK \/ bk = PUMB \/ bk = ABANK ->
  parser_map bk row = Ok (Some r) ->
  (flt (amount r) f_zero = true \/ fgt (amount r) f_zero = true)
  /\ mcc r = [].
Proof.
  intros [-> | [-> | ->]]; cbn [parser_map];
    [unfold parse_row_oschadbank | unfold parse_row_pumb
     | unfold parse_row_abank];
    open_get; cbv zeta;
    match goal with
    | |- context [match ?x with Some _ => _ | None => _ end] =>
      destruct x as [amt|] eqn:Hsel; [|discriminate]
    end;
    match goal with
    | |- context [_parse_date ?raw] =>
      destruct (_parse_date raw) as [?|?];
      cbn [mbind result_bind]; [|discriminate]
    end;
    intros [= <-]; cbn [amount mcc]; (split; [|done]).
  - by apply (two_column_sign _ _ true) in Hsel.
  - by apply (two_column_sign _ _ true) in Hsel.
  - by apply (two_column_sign _ _ false) in Hsel.
Qed.

(** ** [_is_garbage] *)

(** X17: a non-empty text without control characters, replacement
    characters and box or bullet signs is never taken for garbage. *)
Theorem readable_text_is_not_garbage (text : pystr) :
  text <> [] ->
  Forall (fun c => (c <? 32) || (c =? 65533) || one_of (u "•□■") c = false)
         text ->
  _is_garbage text = false.
Proof.
  intros Hne Hclean. unfold _is_garbage.
  rewrite (bool_decide_eq_false_2 _ Hne). cbv zeta.
  assert (Hbad : List.filter
                   (fun c => (c <? 32) || (c =? 65533)
                             || one_of (u "•□■") c) text = []).
  { clear Hne. induction Hclean as [|c l Hc _ IH]; [done|].
    cbn [List.filter]. by rewrite Hc. }
  rewrite Hbad. cbn [length].
  change (float_of_Z (Z.of_nat 0)) with (S754_zero false).
  generalize (float_of_Z (Z.of_nat (length text `max` 1))).
  intros [| | | ? ? ?]; vm_compute; reflexivity.
Qed.

(** ** [_extract_abank_header] *)

Lemma set_total_dom (key : pystr) (pattern : regex) (text : pystr)
    (totals : gmap pystr total_value) :
  dom (set_total key pattern text totals) ⊆ {[ key ]} ∪ dom totals.
Proof.
  unfold set_total.
  destruct (re_search pattern text); [rewrite dom_insert_L|]; set_solver.
Qed.

Lemma header_keys_shape (k1 k2 k3 k4 pf pt : pystr)
    (D1 D2 D3 D4 D : gset pystr) :
  D1 ⊆ {[ k1 ]} -> D2 ⊆ {[ k2 ]} ∪ D1 -> D3 ⊆ {[ k3 ]} ∪ D2 ->
  D4 ⊆ {[ k4 ]} ∪ D3 ->
  D = {[ pt ]} ∪ ({[ pf ]} ∪ D4) \/ D = D4 ->
  pf <> k1 -> pf <> k2 -> pf <> k3 -> pf <> k4 ->
  pt <> k1 -> pt <> k2 -> pt <> k3 -> pt <> k4 ->
  D ⊆ {[ k1; k2; k3; k4; pf; pt ]} /\ (pf ∈ D <-> pt ∈ D).
Proof.
  intros H1 H2 H3 H4 HD F1 F2 F3 F4 T1 T2 T3 T4.
  assert (Hfour : forall x, x ∈ D4 -> x = k1 \/ x = k2 \/ x = k3 \/ x = k4).
  { clear HD F1 F2 F3 F4 T1 T2 T3 T4. intros x Hx.
    apply H4 in Hx. apply elem_of_union in Hx as [Hx | Hx];
      [apply elem_of_singleton in Hx; tauto|].
    apply H3 in Hx. apply elem_of_union in Hx as [Hx | Hx];
      [apply elem_of_singleton in Hx; tauto|].
    apply H2 in Hx. apply elem_of_union in Hx as [Hx | Hx];
      [apply elem_of_singleton in Hx; tauto|].
    apply H1 in Hx. apply elem_of_singleton in Hx. tauto. }
  clear H1 H2 H3 H4. split.
  - intros x Hx. rewrite !elem_of_union, !elem_of_singleton.
    destruct HD as [-> | ->].
    + rewrite !elem_of_union, !elem_of_singleton in Hx.
      destruct Hx as [-> | [-> | Hx]]; [tauto | tauto |].
      apply Hfour in Hx. tauto.
    + apply Hfour in Hx. tauto.
  - destruct HD as [-> | ->].
    + rewrite !elem_of_union, !elem_of_singleton. tauto.
    + split; intros Hin; apply Hfour in Hin; tauto.
Qed.

(** X18: the totals read from an A-Bank header use no key beyond the six
    of the docstring, and the two ends of the period come together or
    not at all. *)
Theorem abank_header_keys (first : page) :
  dom (_extract_abank_header first) ⊆ HEADER_KEYS
  /\ (u "period_from" ∈ dom (_extract_abank_header first)
      <-> u "period_to" ∈ dom (_extract_abank_header first)).
Proof.
  assert (Hd : forall a b : pystr,
            bool_decide (a = b) = false -> a <> b).
  { intros a b. apply bool_decide_eq_false. }
  unfold HEADER_KEYS.
  set (text := default [] (extract_text first)).
  set (t1 := set_total (u "expenses") _RE_EXPENSES text ∅).
  set (t2 := set_total (u "income") _RE_INCOME text t1).
  set (t3 := set_total (u "balance_start") _RE_BAL_START text t2).
  set (t4 := set_total (u "balance_end") _RE_BAL_END text t3).
  apply (header_keys_shape _ _ _ _ _ _ (dom t1) (dom t2) (dom t3) (dom t4)).
  - pose proof (set_total_dom (u "expenses") _RE_EXPENSES text ∅) as H.
    by rewrite dom_empty_L, (right_id_L ∅ (∪)) in H.
  - apply set_total_dom.
  - apply set_total_dom.
  - apply set_total_dom.
  - unfold _extract_abank_header. cbv zeta. fold text t1 t2 t3 t4.
    destruct (re_search _RE_PERIOD text); [left | right].
    + by rewrite !dom_insert_L.
    + done.
  - apply Hd. vm_compute. reflexivity.
  - apply Hd. vm_compute. reflexivity.
  - apply Hd. vm_compute. reflexivity.
  - apply Hd. vm_compute. reflexivity.
  - apply Hd. vm_compute. reflexivity.
  - apply Hd. vm_compute. reflexivity.
  - apply Hd. vm_compute. reflexivity.
  - apply Hd. vm_compute. reflexivity.
Qed.

(** ** [parse_pdf] *)

(** X19: a first page that names Monobank makes [parse_pdf] answer as
    Monobank, with no totals, even when it names A-Bank as well; only
    otherwise does a page naming A-Bank give an A-Bank result, whose
    totals are those of the header. *)
Theorem parse_pdf_bank first rest user_id categories res :
  parse_pdf (first :: rest) user_id categories = Ok res ->
  let text_lower := lower (default [] (extract_text first)) in
  if str_in (u "monobank") text_lower
     || str_in (u "універсал банк") text_lower
     || str_in (u "universal bank") text_lower
  then bank (pdf_result res) = MONO /\ bank_totals res = ∅
  else bank (pdf_result res) = ABANK
       /\ bank_totals res = _extract_abank_header first.
Proof.
  unfold parse_pdf. cbv zeta.
  match goal with |- context [if ?c then Ok _ else _] => destruct c end.
  - intros [= <-]. unfold _parse_monobank_pdf.
    destruct (collect_pages _ _ _ _ _) as [[|r raw_rows] sk]; done.
  - match goal with |- context [if ?c then Ok _ else _] => destruct c end;
      [|discriminate].
    intros [= <-]. unfold _parse_abank_pdf.
    destruct (collect_pages _ _ _ _ _) as [[|r raw_rows] sk]; done.
Qed.

Lemma collect_tables_counts accept extract :
  (forall tbl, (length (extract tbl).1 + (extract tbl).2
                = length tbl - 1)%nat) ->
  forall tbls (raw_rows : list RawRow) sk,
  let out := collect_tables accept extract tbls raw_rows sk in
  (length out.1 + out.2
   = length raw_rows + sk
     + sum_list_with
         (fun tbl => if bool_decide (tbl = []) then 0%nat
                     else if accept tbl then (length tbl - 1)%nat else 0%nat)
         tbls)%nat.
Proof.
  intros Hext. induction tbls as [|tbl rest IH]; intros raw_rows sk;
    cbn [collect_tables sum_list_with].
  - cbn. lia.
  - cbv zeta in IH |- *. repeat case_bool_decide; try contradiction.
    + rewrite IH. lia.
    + destruct (accept tbl).
      * specialize (Hext tbl). destruct (extract tbl) as [found skipped].
        cbn [fst snd] in Hext. rewrite IH, length_app. lia.
      * rewrite IH. lia.
Qed.

Lemma collect_pages_counts accept extract :
  (forall tbl, (length (extract tbl).1 + (extract tbl).2
                = length tbl - 1)%nat) ->
  forall pdf (raw_rows : list RawRow) sk,
  let out := collect_pages accept extract pdf raw_rows sk in
  (length out.1 + out.2
   = length raw_rows + sk + recognised_rows accept pdf)%nat.
Proof.
  intros Hext. unfold recognised_rows.
  induction pdf as [|pg rest IH]; intros raw_rows sk;
    cbn [collect_pages map mjoin list_join].
  - cbn. lia.
  - pose proof (collect_tables_counts accept extract Hext (page_tables pg)
                  raw_rows sk) as Htbl. cbv zeta in Htbl.
    destruct (collect_tables accept extract (page_tables pg) raw_rows sk)
      as [raw_rows' sk']. cbn [fst snd] in Htbl.
    cbv zeta in IH |- *. rewrite IH, sum_list_with_app, Htbl.
    symmetry. apply Nat.add_assoc.
Qed.

(** X20: the PDF pipeline accounts for every row below the header of
    every table it recognises: the row is emitted or counted as
    skipped. *)
Theorem parse_pdf_accounts_for_every_row pdf user_id categories res :
  parse_pdf pdf user_id categories = Ok res ->
  (length (rows (pdf_result res)) + skipped (pdf_result res)
   = recognised_rows
       (match bank (pdf_result res) with
        | MONO => _is_monobank_table
        | _ => _is_abank_table
        end) pdf)%nat.
Proof.
  assert (Hmono : forall tbl,
            (length (_extract_monobank_rows tbl).1
             + (_extract_monobank_rows tbl).2 = length tbl - 1)%nat).
  { intros tbl. unfold _extract_monobank_rows.
    by rewrite extract_rows_counts, length_drop. }
  assert (Habank : forall tbl,
            (length (_extract_abank_rows tbl).1
             + (_extract_abank_rows tbl).2 = length tbl - 1)%nat).
  { intros tbl. unfold _extract_abank_rows.
    by rewrite extract_rows_counts, length_drop. }
  unfold parse_pdf. destruct pdf as [|first rest]; [discriminate|].
  cbv zeta.
  match goal with |- context [if ?c then Ok _ else _] => destruct c end.
  - intros [= <-]. unfold _parse_monobank_pdf.
    pose proof (collect_pages_counts _is_monobank_table
                  _extract_monobank_rows Hmono (first :: rest) [] 0%nat)
      as Hc. cbv zeta in Hc.
    destruct (collect_pages _ _ _ _ _) as [[|r raw_rows] sk].
    + cbn [pdf_result rows skipped bank fst snd length] in *. exact Hc.
    + pose proof (process_raw_rows_counts (r :: raw_rows) sk MONO ∅
                    user_id categories) as Hp. cbv zeta in Hp.
      unfold _process_raw_rows in *.
      cbn [pdf_result rows skipped bank fst snd] in *.
      etransitivity; [exact Hp|]. rewrite Nat.add_comm. exact Hc.
  - match goal with |- context [if ?c then Ok _ else _] => destruct c end;
      [|discriminate].
    intros [= <-]. unfold _parse_abank_pdf.
    pose proof (collect_pages_counts _is_abank_table _extract_abank_rows
                  Habank (first :: rest) [] 0%nat)
      as Hc. cbv zeta in Hc.
    destruct (collect_pages _ _ _ _ _) as [[|r raw_rows] sk].
    + cbn [pdf_result rows skipped bank fst snd length] in *. exact Hc.
    + pose proof (process_raw_rows_counts (r :: raw_rows) sk ABANK
                    (_extract_abank_header first) user_id categories) as Hp.
      cbv zeta in Hp. unfold _process_raw_rows in *.
      cbn [pdf_result rows skipped bank fst snd] in *.
      etransitivity; [exact Hp|]. rewrite Nat.add_comm. exact Hc.
Qed.

End Further5.
Section Further6.

Context {calendar : Calendar}.

(** ** [_is_person_name] accepts plain names *)

Lemma in_ranges_outside (c a b : N) tbl :
  a <= c <= b ->
  forallb (fun r => (snd r <? a) || (b <? fst r)) tbl = true ->
  in_ranges c tbl = false.
Proof.
  intros Hc. unfold in_ranges. induction tbl as [|[lo hi] tbl IH]; [done|].
  cbn [forallb existsb fst snd].
  intros [Hr Hrest]%andb_true_iff. rewrite (IH Hrest), orb_false_r.
  apply orb_true_iff in Hr as [H%N.ltb_lt | H%N.ltb_lt].
  - apply andb_false_iff. right. apply N.leb_gt. lia.
  - apply andb_false_iff. left. apply N.leb_gt. lia.
Qed.

Lemma one_of_outside (c a b : N) (l : pystr) :
  a <= c <= b ->
  forallb (fun x => (x <? a) || (b <? x)) l = true ->
  one_of l c = false.
Proof.
  intros Hc. unfold one_of. induction l as [|x l IH]; [done|].
  cbn [forallb existsb].
  intros [Hx Hrest]%andb_true_iff. rewrite (IH Hrest), orb_false_r.
  apply N.eqb_neq.
  apply orb_true_iff in Hx as [H%N.ltb_lt | H%N.ltb_lt]; lia.
Qed.

(** The letters of a name are neither blanks nor forbidden signs. *)
Lemma name_letter_is_clean (c : N) :
  cyr_upper c = true \/ cyr_lower c = true ->
  isspace c = false /\ name_forbidden c = false.
Proof.
  assert (Hrange : 1028 <= c <= 1169 ->
                   isspace c = false /\ name_forbidden c = false).
  { intros Hc. unfold isspace, name_forbidden, is_decimal. split.
    - apply (in_ranges_outside c 1028 1169); [done|]. vm_compute. reflexivity.
    - rewrite (in_ranges_outside c 1028 1169 Nd_table);
        [|done|vm_compute; reflexivity].
      apply (one_of_outside c 1028 1169); [done|]. vm_compute. reflexivity. }
  assert (Hpoint : c = 39 \/ c = 45 ->
                   isspace c = false /\ name_forbidden c = false).
  { intros [-> | ->]; split; vm_compute; reflexivity. }
  unfold cyr_upper, cyr_lower, in_ranges, one_of. cbn [existsb fst snd].
  rewrite !orb_false_r, !orb_true_iff, !andb_true_iff, !N.leb_le, !N.eqb_eq.
  intros H. destruct H as [H | H].
  - apply Hrange. lia.
  - destruct H as [H | [H | [H | [H | [H | [H | H]]]]]];
      try (apply Hrange; lia); apply Hpoint; lia.
Qed.

Lemma plain_word_chars (w : pystr) :
  plain_name_word w ->
  w <> [] /\ (2 <= length w)%nat
  /\ Forall (fun x => isspace x = false /\ name_forbidden x = false) w.
Proof.
  destruct w as [|c ls]; [done|]. intros (Hc & Hlen & Hls).
  split; [done|]. split; [cbn [length]; lia|].
  constructor; [apply name_letter_is_clean; by left|].
  eapply Forall_impl; [exact Hls|]. cbv beta. intros x Hx.
  apply name_letter_is_clean. by right.
Qed.

Lemma join_spaced (w : pystr) ws : join [32] (w :: ws) = w ++ spaced ws.
Proof.
  revert w. induction ws as [|w' ws IH]; intros w.
  - cbn [join spaced]. by rewrite app_nil_r.
  - change (join [32] (w :: w' :: ws))
      with (w ++ [32] ++ join [32] (w' :: ws)).
    rewrite IH. done.
Qed.

Lemma split_from_word (w rest cur : pystr) :
  Forall (fun x => isspace x = false) w ->
  split_from (w ++ rest) cur = split_from rest (rev w ++ cur).
Proof.
  intros Hw. revert cur. induction Hw as [|x w Hx _ IH]; intros cur; [done|].
  cbn [app split_from rev]. rewrite Hx, IH, <- app_assoc. done.
Qed.

Lemma split_spaced (ws : list pystr) (cur : pystr) :
  Forall (fun w => w <> [] /\ Forall (fun x => isspace x = false) w) ws ->
  cur <> [] ->
  split_from (spaced ws) cur = rev cur :: ws.
Proof.
  intros Hws. revert cur. induction Hws as [|w ws [Hne Hw] _ IH];
    intros cur Hcur; cbn [spaced split_from].
  - by destruct cur.
  - change (isspace 32) with true. cbv iota.
    destruct cur as [|c cur']; [done|]. f_equal.
    rewrite (split_from_word w (spaced ws) [] Hw), app_nil_r.
    rewrite IH, rev_involutive; [done|].
    destruct w; [done|]. cbn [rev]. by destruct (rev w).
Qed.

Lemma split_plain_names (w : pystr) (ws : list pystr) :
  Forall (fun w => w <> [] /\ Forall (fun x => isspace x = false) w)
         (w :: ws) ->
  split (join [32] (w :: ws)) = w :: ws.
Proof.
  intros [[Hne Hw] Hws]%Forall_cons. unfold split.
  rewrite join_spaced, (split_from_word w (spaced ws) [] Hw), app_nil_r.
  rewrite split_spaced, rev_involutive; [done|done|].
  destruct w; [done|]. cbn [rev]. by destruct (rev w).
Qed.

Lemma Forall_spaced (P : N -> Prop) (ws : list pystr) :
  P 32 -> Forall (Forall P) ws -> Forall P (spaced ws).
Proof.
  intros Hsp. induction 1 as [|w ws Hw _ IH]; cbn [spaced]; [done|].
  constructor; [done|]. by apply Forall_app.
Qed.

Lemma strip_keeps (s : pystr) (x y : N) (m m' : pystr) :
  s = x :: m -> s = m' ++ [y] ->
  isspace x = false -> isspace y = false ->
  strip s = s.
Proof.
  intros Hhead Hlast Hx Hy. unfold strip, strip_by, rstrip_by.
  assert (Hl : lstrip_by isspace s = s).
  { rewrite Hhead. cbn [lstrip_by]. by rewrite Hx. }
  rewrite Hl. rewrite Hlast at 1. rewrite rev_app_distr. cbn [rev app].
  cbn [lstrip_by]. rewrite Hy. cbn [rev]. rewrite rev_involutive.
  by rewrite <- Hlast.
Qed.

Lemma spaced_last (ws : list pystr) (w : pystr) :
  Forall (fun w => w <> []) (w :: ws) ->
  exists m y, w ++ spaced ws = m ++ [y]
              /\ exists w', w' ∈ w :: ws /\ y ∈ w'.
Proof.
  revert w. induction ws as [|w2 ws IH]; intros w Hall.
  - apply Forall_cons in Hall as [Hw _]. cbn [spaced].
    rewrite app_nil_r. destruct (exists_last Hw) as (m & y & ->).
    exists m, y. split; [done|]. exists (m ++ [y]). split; [left|].
    apply elem_of_app. right. left.
  - apply Forall_cons in Hall as [Hw Hrest]. cbn [spaced].
    destruct (IH w2 Hrest) as (m & y & Hm & w' & Hin & Hy).
    exists (w ++ 32 :: m), y. split.
    + rewrite <- app_assoc. cbn [app]. by rewrite Hm.
    + exists w'. split; [by right | done].
Qed.

(** The unfolding equations of a bounded repetition. *)
Lemma bt_rep_zero {R} r (s : pystr) caps (k : pystr -> list pystr -> option R) :
  bt (Rep r 0 (Some 0%nat)) s caps k = k s caps.
Proof. reflexivity. Qed.

Lemma bt_rep_must {R} r lo n (s : pystr) caps
    (k : pystr -> list pystr -> option R) :
  bt (Rep r (S lo) (Some (S n))) s caps k
  = bt r s caps (fun s1 c1 => bt (Rep r lo (Some n)) s1 c1 k).
Proof. reflexivity. Qed.

Lemma bt_rep_may {R} r n (s : pystr) caps
    (k : pystr -> list pystr -> option R) :
  bt (Rep r 0 (Some (S n))) s caps k
  = match bt r s caps (fun s1 c1 => bt (Rep r 0 (Some n)) s1 c1 k) with
    | Some x => Some x
    | None => k s caps
    end.
Proof. reflexivity. Qed.

Lemma bt_cls {R} p c (s : pystr) caps
    (k : pystr -> list pystr -> option R) :
  bt (Cls p) (c :: s) caps k = if p c then k s caps else None.
Proof. reflexivity. Qed.

Lemma bt_seq {R} r1 r2 (s : pystr) caps
    (k : pystr -> list pystr -> option R) :
  bt (Seq r1 r2) s caps k = bt r1 s caps (fun s1 c1 => bt r2 s1 c1 k).
Proof. reflexivity. Qed.

(** A run of characters of a class is taken whole by a repetition of the
    class whose bounds allow its length, when what follows is not of the
    class. *)
Lemma rep_class_run {R} (p : N -> bool) (ls : pystr) :
  forall n lo (rest : pystr) caps (k : pystr -> list pystr -> option R) v,
  Forall (fun x => p x = true) ls ->
  (lo <= length ls <= n)%nat ->
  match rest with [] => True | x :: _ => p x = false end ->
  k rest caps = Some v ->
  bt (Rep (Cls p) lo (Some n)) (ls ++ rest) caps k = Some v.
Proof.
  induction ls as [|x ls IH]; intros n lo rest caps k v Hls Hlen Hrest Hk.
  - cbn [length] in Hlen. assert (lo = 0%nat) as -> by lia. cbn [app].
    destruct n as [|n]; [by rewrite bt_rep_zero|].
    rewrite bt_rep_may.
    destruct rest as [|y rest]; [done|]. by rewrite bt_cls, Hrest.
  - apply Forall_cons in Hls as [Hx Hls]. cbn [length] in Hlen.
    destruct n as [|n]; [lia|]. cbn [app].
    destruct lo as [|lo].
    + rewrite bt_rep_may, bt_cls, Hx.
      rewrite (IH n 0%nat rest caps k v); [done|done|lia|done|done].
    + rewrite bt_rep_must, bt_cls, Hx.
      apply IH; [done|lia|done|done].
Qed.

Lemma name_word_run {R} (w rest : pystr) caps
    (k : pystr -> list pystr -> option R) v :
  plain_name_word w ->
  match rest with [] => True | x :: _ => cyr_lower x = false end ->
  k rest caps = Some v ->
  bt name_word (w ++ rest) caps k = Some v.
Proof.
  destruct w as [|c ls]; [done|]. intros (Hc & Hlen & Hls) Hrest Hk.
  unfold name_word. cbn [app]. rewrite bt_seq, bt_cls, Hc.
  apply rep_class_run; [done|lia|done|done].
Qed.

Lemma name_groups_run (ws : list pystr) :
  forall n lo caps,
  Forall plain_name_word ws ->
  (lo <= length ws <= n)%nat ->
  bt (Rep (Seq (Cls (fun c => isspace c || (c =? 45))) name_word)
          lo (Some n))
     (spaced ws) caps
     (fun s2 c2 => bt Eos s2 c2 (fun _ caps => Some caps))
  = Some caps.
Proof.
  induction ws as [|w ws IH]; intros n lo caps Hws Hlen.
  - cbn [length] in Hlen. assert (lo = 0%nat) as -> by lia. cbn [spaced].
    destruct n as [|n]; [by rewrite bt_rep_zero|].
    rewrite bt_rep_may. reflexivity.
  - apply Forall_cons in Hws as [Hw Hws]. cbn [length] in Hlen.
    destruct n as [|n]; [lia|]. cbn [spaced].
    assert (Hnext : match spaced ws with
                    | [] => True
                    | x :: _ => cyr_lower x = false
                    end).
    { destruct ws; cbn [spaced]; [done|]. vm_compute. reflexivity. }
    destruct lo as [|lo].
    + rewrite bt_rep_may, bt_seq, bt_cls.
      change (isspace 32 || (32 =? 45)) with true. cbv iota.
      rewrite (name_word_run w (spaced ws) caps _ caps Hw Hnext); [done|].
      apply IH; [done|lia].
    + rewrite bt_rep_must, bt_seq, bt_cls.
      change (isspace 32 || (32 =? 45)) with true. cbv iota.
      apply (name_word_run w (spaced ws) caps _ caps Hw Hnext).
      apply IH; [done|lia].
Qed.

Lemma re_search_class_none p (s : pystr) :
  existsb p s = false -> re_search (Cls p) s = None.
Proof.
  induction s as [|c s IH]; [done|]. cbn [existsb].
  intros [Hc Hs]%orb_false_iff. cbn [re_search]. unfold re_match.
  cbn [bt]. rewrite Hc. exact (IH Hs).
Qed.

(** X21: two to four words, each a capital Cyrillic letter followed by
    one to twenty small ones (apostrophes and hyphens allowed), joined
    by single spaces, are a person name for [_is_person_name], and so
    the classifier calls the row a transfer to a person whatever the
    amount and the merchant code. *)
Theorem plain_names_are_person_names (ws : list pystr) raw_amount
    (mcc : pystr) :
  (2 <= length ws <= 4)%nat ->
  Forall plain_name_word ws ->
  _is_person_name (join (u " ") ws) = true
  /\ _classify_transaction raw_amount (join (u " ") ws) mcc
     = (PERSON_TRANSFER, transfer, false).
Proof.
  intros Hlen Hws.
  replace (u " ") with [32] by (vm_compute; reflexivity).
  assert (Hname : _is_person_name (join [32] ws) = true).
  { destruct ws as [|w ws]; [cbn in Hlen; lia|].
    pose proof Hws as Hchars. rewrite Forall_forall in Hchars.
    assert (Hclean : Forall (fun w => w <> []
                       /\ Forall (fun x => isspace x = false) w) (w :: ws)).
    { apply Forall_forall. intros w' Hw'.
      destruct (plain_word_chars w' (Hchars w' Hw')) as (Hne & _ & Hall).
      split; [done|]. eapply Forall_impl; [exact Hall|]. cbv beta. tauto. }
    assert (Hsplit := split_plain_names w ws Hclean).
    assert (Hall : Forall (fun x => name_forbidden x = false)
                          (join [32] (w :: ws))).
    { rewrite join_spaced. apply Forall_app. split.
      - destruct (plain_word_chars w (Hchars w ltac:(left))) as (_ & _ & H).
        eapply Forall_impl; [exact H|]. cbv beta. tauto.
      - apply Forall_spaced; [vm_compute; reflexivity|].
        apply Forall_forall. intros w' Hw'.
        destruct (plain_word_chars w' (Hchars w' ltac:(by right)))
          as (_ & _ & H).
        eapply Forall_impl; [exact H|]. cbv beta. tauto. }
    assert (Hlong : (5 <= length (join [32%N] (w :: ws)))%nat).
    { destruct ws as [|w2 ws]; [cbn in Hlen; lia|].
      rewrite join_spaced. cbn [spaced]. rewrite !length_app. cbn [length].
      rewrite length_app.
      destruct (plain_word_chars w (Hchars w ltac:(left))) as (_ & H1 & _).
      destruct (plain_word_chars w2 (Hchars w2 ltac:(right; left)))
        as (_ & H2 & _). lia. }
    assert (Hstrip : strip (join [32] (w :: ws)) = join [32] (w :: ws)).
    { rewrite join_spaced.
      destruct (spaced_last ws w) as (m & y & Hm & w' & Hin & Hy).
      { eapply Forall_impl; [exact Hclean|]. cbv beta. tauto. }
      destruct w as [|c ls] eqn:Ew; [by destruct (Hchars [] ltac:(left))|].
      rewrite <- Ew in *.
      apply (strip_keeps _ c y (ls ++ spaced ws) m).
      - by rewrite Ew.
      - done.
      - destruct (plain_word_chars w (Hchars w ltac:(left))) as (_ & _ & H).
        rewrite Ew in H. apply Forall_cons in H as [[H _] _]. done.
      - rewrite Forall_forall in Hclean.
        destruct (Hclean w' Hin) as [_ H]. rewrite Forall_forall in H.
        by apply H. }
    unfold _is_person_name.
    assert (Hne : join [32] (w :: ws) <> []).
    { intros E. rewrite E in Hlong. cbn in Hlong. lia. }
    repeat case_bool_decide; try contradiction; try lia; cbn [orb].
    all: rewrite ?Hsplit in *; try lia.
    rewrite (re_search_class_none name_forbidden).
    2: { apply not_true_is_false. intros E. apply existsb_exists in E
           as (x & Hx & Hfx). rewrite Forall_forall in Hall.
         apply list_elem_of_In in Hx. rewrite (Hall x Hx) in Hfx. done. }
    cbn [is_Some_b]. rewrite Hstrip, join_spaced.
    unfold re_match, _RE_PERSON_NAME. rewrite bt_seq.
    assert (Hnext : match spaced ws with
                    | [] => True
                    | x :: _ => cyr_lower x = false
                    end).
    { destruct ws; cbn [spaced]; [done|]. vm_compute. reflexivity. }
    rewrite (name_word_run w (spaced ws) [] _ [] (Hchars w ltac:(left))
               Hnext); [done|].
    apply Forall_cons in Hws as [_ Hws]. rewrite bt_seq.
    apply name_groups_run; [done|]. cbn [length] in Hlen. lia. }
  split; [exact Hname|].
  unfold _classify_transaction. cbv zeta. rewrite Hname.
  unfold PERSON_TRANSFER. reflexivity.
Qed.

End Further6.

(** * The further properties at concrete inputs *)


Lemma csv_income_and_transfer_vocabulary_witness :
  exists row,
    @csv_emit text_calendar (u "u1") small_catalogue MONO salary_credit
    = Some row
    /\ ((exists rule, rule ∈ KEYWORD_RULES
                      /\ rule.1.2 = raw_category (row_metadata row)
                      /\ rule.2 = row_type row)
        \/ (exists code, MCC_TO_CATEGORY !! code
                         = Some (raw_category (row_metadata row),
                                 row_type row))).
Proof.
  eexists. split; [vm_compute; reflexivity|].
  apply (@csv_income_and_transfer_vocabulary text_calendar (u "u1")
           small_catalogue MONO salary_credit).
  - vm_compute. reflexivity.
  - vm_compute. discriminate.
Defined.

Lemma known_mcc_decides_witness :
  categorize (u "зарплата") (u "5411") = (u "Супермаркети", expense, false)
  /\ expense <> income.
Proof.
  apply (known_mcc_decides (u "зарплата") (u "5411") (u "Супермаркети")
           expense).
  - intros E. vm_compute in E. discriminate.
  - vm_compute. reflexivity.
Defined.

Lemma find_category_id_same_type_witness :
  exists c, c ∈ small_catalogue
            /\ cat_type c = tx_str expense /\ cat_id c = u "c3".
Proof.
  apply (find_category_id_same_type small_catalogue (u "Аванс") expense
           (u "c3")).
  vm_compute. reflexivity.
Defined.

Lemma find_category_id_exact_first_witness :
  find_category_id
    ([ {| cat_id := u "c3"; cat_name := u "Зарплата / Аванс";
          cat_type := u "income" |} ]
     ++ {| cat_id := u "c1"; cat_name := u " зарплата";
           cat_type := u "income" |}
     :: [ {| cat_id := u "c4"; cat_name := u "Зарплата";
             cat_type := u "income" |} ])
    (u "Зарплата") income
  = Some (u "c1").
Proof.
  apply (find_category_id_exact_first
           [ {| cat_id := u "c3"; cat_name := u "Зарплата / Аванс";
                cat_type := u "income" |} ]
           {| cat_id := u "c1"; cat_name := u " зарплата";
              cat_type := u "income" |}
           [ {| cat_id := u "c4"; cat_name := u "Зарплата";
                cat_type := u "income" |} ]
           (u "Зарплата") income).
  - vm_compute. reflexivity.
  - vm_compute. reflexivity.
  - constructor; [|constructor].
    intros [_ E]. vm_compute in E. discriminate.
Defined.

Lemma parse_csv_accounts_for_every_record_witness :
  exists res,
    @parse_csv text_calendar
      (mono_reader (u "СУПЕРМАРКЕТ ABC") (u "5411") (u "0.001"))
      (u "u1") small_catalogue = Ok res
    /\ (length (rows res) + skipped res
        = length (records (mono_reader (u "СУПЕРМАРКЕТ ABC") (u "5411")
                             (u "0.001"))))%nat
    /\ bank res
       = detect_bank (fieldnames (mono_reader (u "СУПЕРМАРКЕТ ABC")
                                    (u "5411") (u "0.001"))).
Proof.
  eexists. split; [vm_compute; reflexivity|].
  apply (@parse_csv_accounts_for_every_record text_calendar _ (u "u1")
           small_catalogue).
  - intros E. vm_compute in E. discriminate.
  - vm_compute. reflexivity.
Defined.

Lemma stored_description_is_truncated_witness :
  exists row,
    @pdf_emit text_calendar (u "u1") small_catalogue ABANK supermarket_row
    = Some row
    /\ match row_description row with
       | None => description supermarket_row = []
       | Some d => d = take 255 (description supermarket_row)
                   /\ (1 <= length d <= 255)%nat
       end.
Proof.
  eexists. split; [vm_compute; reflexivity|].
  apply (@stored_description_is_truncated text_calendar (u "u1")
           small_catalogue ABANK supermarket_row).
  right. vm_compute. reflexivity.
Defined.

Lemma ragged_record_aborts_generic_import_witness :
  exists e,
    @parse_csv text_calendar ragged_reader (u "u1") small_catalogue = Raise e.
Proof.
  apply (@ragged_record_aborts_generic_import text_calendar ragged_reader
           (u "u1") small_catalogue
           [(Field (u "Date"), Some (u "01.01.2025"));
            (Field (u "Amount"), Some (u "-5"));
            (RestKey, Some (u "extra"))]
           (Some (u "extra"))).
  - intros E. vm_compute in E. discriminate.
  - vm_compute. reflexivity.
  - left.
  - right. right. left.
Defined.


Lemma single_comma_is_decimal_point_witness :
  _parse_amount (u "-1250" ++ u "," ++ u "75")
  = _parse_amount (u "-1250" ++ u "." ++ u "75")
  /\ _parse_amount (u "-1250" ++ u "," ++ u "75")
     = float_of_str (u "-1250" ++ u "." ++ u "75").
Proof.
  apply (single_comma_is_decimal_point (u "-1250") (u "75"));
    apply (bool_decide_unpack _); vm_compute; exact I.
Defined.

Lemma monobank_date_column_decides_witness :
  detect_bank [u "Сума"; u " Дата і час операції (UTC)"] = MONO.
Proof.
  apply (monobank_date_column_decides
           [u "Сума"; u " Дата і час операції (UTC)"]
           (u " Дата і час операції (UTC)")).
  - right. left.
  - vm_compute. reflexivity.
Defined.

Lemma detect_bank_ignores_column_order_witness :
  detect_bank [u "Дебет"; u "Призначення платежу"]
  = detect_bank [u "Призначення платежу"; u "Дебет"].
Proof.
  apply (detect_bank_ignores_column_order
           [u "Дебет"; u "Призначення платежу"]
           [u "Призначення платежу"; u "Дебет"]).
  generalize (u "Дебет"), (u "Призначення платежу"). intros a b h.
  rewrite !elem_of_cons, !elem_of_nil. tauto.
Defined.

Lemma two_column_amount_is_signed_witness :
  exists r,
    @parser_map text_calendar OSCHADBANK oschadbank_debit = Ok (Some r)
    /\ (flt (amount r) f_zero = true \/ fgt (amount r) f_zero = true)
    /\ mcc r = [].
Proof.
  eexists. split; [vm_compute; reflexivity|].
  apply (@two_column_amount_is_signed text_calendar OSCHADBANK
           oschadbank_debit).
  - left. reflexivity.
  - vm_compute. reflexivity.
Defined.

Lemma readable_text_is_not_garbage_witness :
  _is_garbage (u "АТБ МАРКЕТ") = false.
Proof.
  apply (readable_text_is_not_garbage (u "АТБ МАРКЕТ")).
  - intros E. vm_compute in E. discriminate.
  - apply (bool_decide_unpack _). vm_compute. exact I.
Defined.

Lemma parse_pdf_bank_witness :
  exists res,
    @parse_pdf text_calendar [abank_page] (u "u1") small_catalogue = Ok res
    /\ let text_lower := lower (default [] (extract_text abank_page)) in
       if str_in (u "monobank") text_lower
          || str_in (u "універсал банк") text_lower
          || str_in (u "universal bank") text_lower
       then bank (pdf_result res) = MONO /\ bank_totals res = ∅
       else bank (pdf_result res) = ABANK
            /\ bank_totals res = _extract_abank_header abank_page.
Proof.
  eexists. split; [vm_compute; reflexivity|].
  apply (@parse_pdf_bank text_calendar abank_page [] (u "u1")
           small_catalogue).
  vm_compute. reflexivity.
Defined.

Lemma parse_pdf_accounts_for_every_row_witness :
  exists res,
    @parse_pdf text_calendar [abank_page] (u "u1") small_catalogue = Ok res
    /\ (length (rows (pdf_result res)) + skipped (pdf_result res)
        = recognised_rows
            (match bank (pdf_result res) with
             | MONO => _is_monobank_table
             | _ => _is_abank_table
             end) [abank_page])%nat.
Proof.
  eexists. split; [vm_compute; reflexivity|].
  apply (@parse_pdf_accounts_for_every_row text_calendar [abank_page]
           (u "u1") small_catalogue).
  vm_compute. reflexivity.
Defined.

Lemma plain_names_are_person_names_witness :
  _is_person_name (join (u " ") [u "Іван"; u "Петренко"]) = true
  /\ _classify_transaction (float_of_Z 300)
       (join (u " ") [u "Іван"; u "Петренко"]) (u "4829")
     = (PERSON_TRANSFER, transfer, false).
Proof.
  apply (plain_names_are_person_names [u "Іван"; u "Петренко"]
           (float_of_Z 300) (u "4829")).
  - cbn [length]. lia.
  - replace (u "Іван") with [1030; 1074; 1072; 1085]
      by (vm_compute; reflexivity).
    replace (u "Петренко")
      with [1055; 1077; 1090; 1088; 1077; 1085; 1082; 1086]
      by (vm_compute; reflexivity).
    repeat constructor.
Defined.
